(** * bg-remove: the Penpal service of the embedded page

    A shallow embedding of [src/services/penpal-service.ts] (the four
    remote-callable methods and their marshalling helpers) and of the
    parts of [src/App.tsx] that set up the Penpal connection and switch
    models, together with the platform functions they rely on
    ([String.prototype.includes], [String.prototype.split], [atob],
    [FileReader.readAsDataURL]).

    JavaScript strings are sequences of UTF-16 code units, modelled as
    [list N]; binary contents ([Uint8Array], [Blob], [File]) are
    [list byte]. *)

From Stdlib Require Import String Ascii.
From Stdlib Require Import Strings.Byte.
From Stdlib Require Import List NArith ZArith Arith Lia ZifyNat Bool.
Import ListNotations.

Set Implicit Arguments.

(* ================================================================== *)
(** ** JavaScript strings *)

Module Js.

Definition JsString := list N.

(** The code units of an ASCII literal. *)
Definition codes (s : string) : JsString :=
  map N_of_ascii (list_ascii_of_string s).

Definition eqb (a b : JsString) : bool :=
  if list_eq_dec N.eq_dec a b then true else false.

(** [s.startsWith(p)] *)
Fixpoint startsWith (p s : JsString) : bool :=
  match p, s with
  | [], _ => true
  | _ :: _, [] => false
  | a :: p', b :: s' => (a =? b)%N && startsWith p' s'
  end.

(** [s.includes(p)]: [p] occurs at some position of [s]. *)
Fixpoint includes (p s : JsString) : bool :=
  startsWith p s ||
  match s with
  | [] => false
  | _ :: s' => includes p s'
  end.

(** [s.split(sep)] for a non-empty separator: the left-to-right scan of
    the built-in.  [skip] counts the code units of a matched separator
    that are still to be passed over, [cur] is the segment being
    collected, most recent unit first. *)
Fixpoint split_scan (sep : JsString) (skip : nat) (cur s : JsString)
  : list JsString :=
  match s with
  | [] => [rev cur]
  | c :: s' =>
      match skip with
      | S k => split_scan sep k cur s'
      | O =>
          if startsWith sep s
          then rev cur :: split_scan sep (length sep - 1) [] s'
          else split_scan sep 0 (c :: cur) s'
      end
  end.

Definition split (sep s : JsString) : list JsString :=
  split_scan sep 0 [] s.

(** [a || b] on strings: the empty string is falsy. *)
Definition orElse (a b : JsString) : JsString :=
  match a with [] => b | _ => a end.

End Js.

Import Js.

(* ================================================================== *)
(** ** Base64: [atob] and the payload of [readAsDataURL] *)

Module Base64.

(** The character of a 6-bit value in the alphabet [A-Za-z0-9+/]. *)
Definition b64char (v : N) : N :=
  (if v <? 26 then 65 + v
   else if v <? 52 then 97 + (v - 26)
   else if v <? 62 then 48 + (v - 52)
   else if v =? 62 then 43
   else 47)%N.

(** The 6-bit value of an alphabet character, [None] outside the
    alphabet. *)
Definition b64val (c : N) : option N :=
  (if (65 <=? c) && (c <=? 90) then Some (c - 65)
   else if (97 <=? c) && (c <=? 122) then Some (c - 71)
   else if (48 <=? c) && (c <=? 57) then Some (c + 4)
   else if c =? 43 then Some 62
   else if c =? 47 then Some 63
   else None)%N.

(** The 6-bit groups of a byte sequence, the last one padded with zero
    bits (RFC 4648, section 4). *)
Fixpoint sextetsOf (bs : list N) : list N :=
  match bs with
  | [] => []
  | [a] => [a / 4; (a mod 4) * 16]%N
  | [a; b] => [a / 4; (a mod 4) * 16 + b / 16; (b mod 16) * 4]%N
  | a :: b :: c :: rest =>
      [a / 4; (a mod 4) * 16 + b / 16; (b mod 16) * 4 + c / 64; c mod 64]%N
        ++ sextetsOf rest
  end.

Definition padding (n : nat) : JsString :=
  match n mod 3 with
  | 1 => [61; 61]%N
  | 2 => [61]%N
  | _ => []
  end.

(** Base64 text of a byte sequence, as [readAsDataURL] produces it. *)
Definition encode (bs : list byte) : JsString :=
  map b64char (sextetsOf (map Byte.to_N bs)) ++ padding (length bs).

(** ASCII whitespace: TAB, LF, FF, CR, SPACE. *)
Definition isAsciiWhitespace (c : N) : bool :=
  ((c =? 9) || (c =? 10) || (c =? 12) || (c =? 13) || (c =? 32))%N.

(** Remove one or two trailing [=]. *)
Definition stripPadding (s : JsString) : JsString :=
  match rev s with
  | last :: r =>
      if (last =? 61)%N then
        match r with
        | last' :: r' => if (last' =? 61)%N then rev r' else rev r
        | [] => rev r
        end
      else s
  | [] => s
  end.

Fixpoint valuesOf (s : JsString) : option (list N) :=
  match s with
  | [] => Some []
  | c :: s' =>
      match b64val c, valuesOf s' with
      | Some v, Some vs => Some (v :: vs)
      | _, _ => None
      end
  end.

(** Bytes of a sequence of 6-bit values; the bits left over in a final
    group of two or three values are discarded. *)
Fixpoint bytesOf (vs : list N) : list N :=
  match vs with
  | a :: b :: c :: d :: rest =>
      [a * 4 + b / 16; (b mod 16) * 16 + c / 4; (c mod 4) * 64 + d]%N
        ++ bytesOf rest
  | [a; b; c] => [a * 4 + b / 16; (b mod 16) * 16 + c / 4]%N
  | [a; b] => [a * 4 + b / 16]%N
  | _ => []
  end.

(** [atob(s)]: the forgiving-base64 decode of the HTML standard.  The
    result is a binary string (one code unit per byte); [None] stands
    for the [InvalidCharacterError] exception. *)
Definition atob (s : JsString) : option JsString :=
  let d := filter (fun c => negb (isAsciiWhitespace c)) s in
  let d := if (length d mod 4 =? 0)%nat then stripPadding d else d in
  if (length d mod 4 =? 1)%nat then None
  else option_map bytesOf (valuesOf d).

End Base64.

(* ================================================================== *)
(** ** Promises and the calls into [lib/process] *)

Module Async.

(** The two model identifiers of the source,
    ['briaai/RMBG-1.4' | 'Xenova/modnet']. *)
Inductive ModelId := RMBG_1_4 | Modnet.

Definition modelName (m : ModelId) : JsString :=
  match m with
  | RMBG_1_4 => codes "briaai/RMBG-1.4"
  | Modnet => codes "Xenova/modnet"
  end.

Record Blob := mkBlob { blobBytes : list byte; blobType : JsString }.

(** A [File] is a [Blob] with a name. *)
Record File := mkFile
  { fileBytes : list byte; fileName : JsString; fileType : JsString }.

(** The record [getModelInfo] returns, as the callers under [src/] see
    it: the interface declared in the integration guide and the fields
    [App.tsx] destructures. *)
Record ModelInfo := mkModelInfo
  { currentModelId : JsString; isWebGPUSupported : bool; isIOS : bool }.

(** What a [catch] clause receives: an [Error] instance with its
    message, or some other thrown value. *)
Inductive Thrown :=
| ErrorObj (message : JsString)
| NonError.

(** A settled promise. *)
Inductive Settled (A : Type) : Type :=
| Fulfilled (a : A)
| Rejected (e : Thrown).
Arguments Fulfilled {A} a.
Arguments Rejected {A} e.

(** An [async] function body up to its calls into [lib/process]: each
    awaited call is a node whose continuation receives the settled
    promise; [getModelInfo] is synchronous and returns a record. *)
Inductive Async (A : Type) : Type :=
| Resolve (a : A)
| Reject (e : Thrown)
| AwaitInitModel (modelId : option ModelId) (k : Settled bool -> Async A)
| AwaitProcessImage (f : File) (k : Settled File -> Async A)
| CallGetModelInfo (k : ModelInfo -> Async A)
| ConsoleError (label : JsString) (e : Thrown) (k : Async A).
Arguments Resolve {A} a.
Arguments Reject {A} e.
Arguments AwaitInitModel {A} modelId k.
Arguments AwaitProcessImage {A} f k.
Arguments CallGetModelInfo {A} k.
Arguments ConsoleError {A} label e k.

Fixpoint bind {A B} (p : Async A) (f : A -> Async B) : Async B :=
  match p with
  | Resolve a => f a
  | Reject e => Reject e
  | AwaitInitModel m k => AwaitInitModel m (fun r => bind (k r) f)
  | AwaitProcessImage x k => AwaitProcessImage x (fun r => bind (k r) f)
  | CallGetModelInfo k => CallGetModelInfo (fun i => bind (k i) f)
  | ConsoleError l e k => ConsoleError l e (bind k f)
  end.

(** [try { p } catch (error) { h error }] *)
Fixpoint tryCatch {A} (p : Async A) (h : Thrown -> Async A) : Async A :=
  match p with
  | Resolve a => Resolve a
  | Reject e => h e
  | AwaitInitModel m k => AwaitInitModel m (fun r => tryCatch (k r) h)
  | AwaitProcessImage x k => AwaitProcessImage x (fun r => tryCatch (k r) h)
  | CallGetModelInfo k => CallGetModelInfo (fun i => tryCatch (k i) h)
  | ConsoleError l e k => ConsoleError l e (tryCatch k h)
  end.

(** [await q] for an already settled promise. *)
Definition await {A} (r : Settled A) : Async A :=
  match r with
  | Fulfilled a => Resolve a
  | Rejected e => Reject e
  end.

(** The three imports from ['../../lib/process']. *)
Definition initModel (modelId : option ModelId) : Async bool :=
  AwaitInitModel modelId await.
Definition processImage (f : File) : Async File :=
  AwaitProcessImage f await.
Definition getModelInfo : Async ModelInfo :=
  CallGetModelInfo Resolve.

Definition consoleError (label : JsString) (e : Thrown) : Async unit :=
  ConsoleError label e (Resolve tt).

Declare Scope async_scope.
Delimit Scope async_scope with async.
Notation "x <- p ;; q" := (bind p (fun x => q))
  (at level 61, p at next level, right associativity) : async_scope.
Notation "p ;; q" := (bind p (fun _ => q))
  (at level 61, right associativity) : async_scope.
Notation "'try' p 'catch' h" := (tryCatch p h)
  (at level 62, p at level 61) : async_scope.

(** *** Running a body against an implementation of [lib/process] *)

(** [lib/process] is not part of the sources at hand; its three exports
    are taken as operations on a state [W] of the library's own.  The
    two asynchronous ones settle one way or the other and may change
    the state; [getModelInfo], which [App.tsx] calls without awaiting,
    reads it. *)
Record Lib (W : Type) := mkLib
  { lib_initModel : option ModelId -> W -> Settled bool * W;
    lib_processImage : File -> W -> Settled File * W;
    lib_getModelInfo : W -> ModelInfo }.

(** What a run of a body did, in order. *)
Inductive Event :=
| CalledInitModel (modelId : option ModelId) (r : Settled bool)
| CalledProcessImage (f : File) (r : Settled File)
| CalledGetModelInfo
| Logged (label : JsString) (e : Thrown).

Fixpoint run {W A} (lib : Lib W) (p : Async A) (w : W)
  : Settled A * W * list Event :=
  match p with
  | Resolve a => (Fulfilled a, w, [])
  | Reject e => (Rejected e, w, [])
  | AwaitInitModel m k =>
      let (r, w1) := lib_initModel lib m w in
      let '(res, w2, t) := run lib (k r) w1 in
      (res, w2, CalledInitModel m r :: t)
  | AwaitProcessImage x k =>
      let (r, w1) := lib_processImage lib x w in
      let '(res, w2, t) := run lib (k r) w1 in
      (res, w2, CalledProcessImage x r :: t)
  | CallGetModelInfo k =>
      let '(res, w2, t) := run lib (k (lib_getModelInfo lib w)) w in
      (res, w2, CalledGetModelInfo :: t)
  | ConsoleError l e k =>
      let '(res, w2, t) := run lib k w in
      (res, w2, Logged l e :: t)
  end.

Definition outcome {W A} (x : Settled A * W * list Event) : Settled A :=
  fst (fst x).
Definition finalState {W A} (x : Settled A * W * list Event) : W :=
  snd (fst x).
Definition trace {W A} (x : Settled A * W * list Event) : list Event :=
  snd x.

Definition isProcessCall (e : Event) : bool :=
  match e with CalledProcessImage _ _ => true | _ => false end.

End Async.

Import Async.

(* ================================================================== *)
(** ** [src/services/penpal-service.ts] *)

Module PenpalService.

Local Open Scope async_scope.

Definition marker : JsString := codes "base64,".

(** The exception of [atob]: a [DOMException] named
    [InvalidCharacterError], an [Error] instance; the text of its
    message is the browser's. *)
Definition invalidCharacterError : Thrown :=
  ErrorObj (codes "The string to be decoded is not correctly encoded.").

(** [imageData.split('base64,')[1]]; an index out of range reads
    [undefined], which [atob] would take as the text "undefined". *)
Definition secondPart (imageData : JsString) : JsString :=
  match nth_error (split marker imageData) 1 with
  | Some part => part
  | None => codes "undefined"
  end.

Definition base64Data (imageData : JsString) : JsString :=
  if includes marker imageData then secondPart imageData else imageData.

(** [uint8Array[i] = byteString.charCodeAt(i)]: a store into a
    [Uint8Array] keeps the value modulo 256. *)
Definition toUint8 (c : N) : byte :=
  match Byte.of_N (c mod 256) with
  | Some b => b
  | None => x00
  end.

Inductive ImageData :=
| Str (s : JsString)
| Bin (b : Blob).

(** [convertToFile]: no call is awaited, so the promise it returns is
    settled by the time it is awaited. *)
Definition convertToFile (imageData : ImageData) : Settled File :=
  match imageData with
  | Str s =>
      match Base64.atob (base64Data s) with
      | None => Rejected invalidCharacterError
      | Some byteString =>
          let uint8Array := map toUint8 byteString in
          let blob := mkBlob uint8Array (codes "image/png") in
          Fulfilled
            (mkFile (blobBytes blob) (codes "input-image.png")
                    (codes "image/png"))
      end
  | Bin b =>
      Fulfilled
        (mkFile (blobBytes b) (codes "input-image.png")
                (orElse (blobType b) (codes "image/png")))
  end.

(** [reader.readAsDataURL(file)]: the media type of the blob, or
    [application/octet-stream] when it has none, then the base64 text
    of the bytes. *)
Definition readAsDataURL (f : File) : JsString :=
  codes "data:"
    ++ orElse (fileType f) (codes "application/octet-stream")
    ++ codes ";" ++ marker ++ Base64.encode (fileBytes f).

(** [fileToBase64]: reading a [File] held in memory does not fail, so
    [onload] fires with the data URL. *)
Definition fileToBase64 (f : File) : Async JsString :=
  Resolve (readAsDataURL f).

(** [error instanceof Error ? error.message : fallback] *)
Definition messageOr (error : Thrown) (fallback : JsString) : JsString :=
  match error with
  | ErrorObj m => m
  | NonError => fallback
  end.

Definition removeBackground (imageData : ImageData) : Async JsString :=
  try (
    initModel None ;;
    inputFile <- await (convertToFile imageData) ;;
    processedFile <- processImage inputFile ;;
    base64Result <- fileToBase64 processedFile ;;
    Resolve base64Result
  ) catch (fun error =>
    consoleError (codes "Error in removeBackground:") error ;;
    Reject (ErrorObj (messageOr error (codes "Failed to remove background")))).

(** The [Blob] resolved is the processed [File] itself. *)
Definition removeBackgroundAsBlob (imageData : ImageData) : Async File :=
  try (
    initModel None ;;
    inputFile <- await (convertToFile imageData) ;;
    processedFile <- processImage inputFile ;;
    Resolve processedFile
  ) catch (fun error =>
    consoleError (codes "Error in removeBackgroundAsBlob:") error ;;
    Reject (ErrorObj (messageOr error (codes "Failed to remove background")))).

Definition initializeModel (modelId : option ModelId) : Async bool :=
  try (
    initModel modelId
  ) catch (fun error =>
    consoleError (codes "Error initializing model:") error ;;
    Reject (ErrorObj (messageOr error (codes "Failed to initialize model")))).

(** The signature of a remote method and the functions of each. *)
Inductive Signature :=
| ImageToString
| ImageToBlob
| ModelIdToBoolean
| NoneToModelInfo.

Definition Implementation (s : Signature) : Type :=
  match s with
  | ImageToString => ImageData -> Async JsString
  | ImageToBlob => ImageData -> Async File
  | ModelIdToBoolean => option ModelId -> Async bool
  | NoneToModelInfo => Async ModelInfo
  end.

Definition Method : Type := { s : Signature & Implementation s }.

(** The object [penpalMethods]: its own properties in insertion
    order. *)
Definition penpalMethods : list (string * Method) :=
  [ ("removeBackground"%string, existT _ ImageToString removeBackground);
    ("removeBackgroundAsBlob"%string,
       existT _ ImageToBlob removeBackgroundAsBlob);
    ("initializeModel"%string, existT _ ModelIdToBoolean initializeModel);
    ("getModelInfo"%string, existT _ NoneToModelInfo getModelInfo) ].

(** The own property of an object of the given name, if it has one
    ([Object.hasOwn(obj, name) ? obj[name] : undefined]). *)
Fixpoint property {V} (obj : list (string * V)) (name : string) : option V :=
  match obj with
  | [] => None
  | (k, v) :: rest => if String.eqb k name then Some v else property rest name
  end.

(** The function-valued properties of [Object.prototype], which every
    object written as a literal inherits (ECMAScript, 20.1.3 and
    B.2.2.2 to B.2.2.5); [__proto__] is there too but is no
    function. *)
Definition objectPrototypeFunctions : list string :=
  [ "constructor"; "hasOwnProperty"; "isPrototypeOf"; "propertyIsEnumerable";
    "toLocaleString"; "toString"; "valueOf"; "__defineGetter__";
    "__defineSetter__"; "__lookupGetter__"; "__lookupSetter__" ]%string.

(** What a property access finds. *)
Inductive Member :=
| OwnMethod (m : Method)
| Inherited (name : string).

(** [obj[name]] on an object literal, when it is a function: the own
    property of that name, else the function [Object.prototype] has
    under that name. *)
Definition getFunction (obj : list (string * Method)) (name : string)
  : option Member :=
  match property obj name with
  | Some m => Some (OwnMethod m)
  | None =>
      if existsb (String.eqb name) objectPrototypeFunctions
      then Some (Inherited name)
      else None
  end.

End PenpalService.

Import PenpalService.

(* ================================================================== *)
(** ** [lib/process]: the Model Lifecycle Manager *)

Module Lifecycle.

(** Modelled from the spec: the result of the Device Capability Probe
    (section 4.1); [lib/process] is not among the sources. *)
Record Capabilities := mkCapabilities
  { accelerated : bool; constrainedPlatform : bool }.

(** Modelled from the spec: the execution backends of the glossary. *)
Inductive Backend := GpuAccelerated | CpuFallback.

(** Modelled from the spec: LifecycleState of section 3. *)
Inductive LifecycleState :=
| Uninitialized
| Initializing (modelId : ModelId)
| Ready (modelId : ModelId) (backend : Backend)
| Switching (fromId toId : ModelId)
| Failed (modelId : ModelId) (cause : JsString).

(** Modelled from the spec: how one attempt to load a model ends
    (the model-loading step is outside the core). *)
Inductive LoadOutcome :=
| Loaded (backend : Backend)
| LoadFailed (cause : JsString).

(** Modelled from the spec: the process-wide state of the Lifecycle
    Manager.  [visited] lists the states left behind, most recent
    first; [loadScript] gives the outcomes of the load attempts still
    to come (an attempt beyond the script succeeds on the CPU). *)
Record World := mkWorld
  { capabilities : Capabilities;
    lifecycle : LifecycleState;
    visited : list LifecycleState;
    loadScript : list LoadOutcome }.

(** Modelled from the spec: the platform default model; the sources
    name it (README: RMBG-1.4 is the default, [App.tsx] resets its
    selection to it after a fallback). *)
Definition platformDefault : ModelId := RMBG_1_4.

(** Modelled from the spec: section 4.2, choice of the model to load;
    constrained platforms always get the default. *)
Definition selectModel (caps : Capabilities) (modelId : option ModelId)
  : ModelId :=
  if constrainedPlatform caps then platformDefault
  else match modelId with Some m => m | None => platformDefault end.

(** [a === b] on model identifiers. *)
Definition modelEqb (a b : ModelId) : bool :=
  match a, b with
  | RMBG_1_4, RMBG_1_4 | Modnet, Modnet => true
  | _, _ => false
  end.

(** Modelled from the spec: a transition of the state machine of
    section 4.2. *)
Definition enter (s : LifecycleState) (w : World) : World :=
  mkWorld (capabilities w) s (lifecycle w :: visited w) (loadScript w).

(** Modelled from the spec: one load attempt. *)
Definition load (w : World) : LoadOutcome * World :=
  match loadScript w with
  | [] => (Loaded CpuFallback, w)
  | o :: rest =>
      (o, mkWorld (capabilities w) (lifecycle w) (visited w) rest)
  end.

(** Modelled from the spec: the end of an initialization,
    [Initializing --success--> Ready], [Initializing --error--> Failed]. *)
Definition finishInitializing (target : ModelId) (w : World)
  : Settled bool * World :=
  let (o, w1) := load w in
  match o with
  | Loaded b => (Fulfilled true, enter (Ready target b) w1)
  | LoadFailed c => (Rejected (ErrorObj c), enter (Failed target c) w1)
  end.

(** Modelled from the spec: the marker of a fallback, an error whose
    message says so; [App.tsx] looks for the words "Falling back". *)
Definition fallbackMessage (fallback : ModelId) (cause : JsString)
  : JsString :=
  codes "Falling back to " ++ modelName fallback ++ codes ": " ++ cause.

(** Modelled from the spec: the end of a switch,
    [Switching --success--> Ready],
    [Switching --error, fallback ok--> Ready (previous/default model)],
    [Switching --error, fallback fails--> Failed]. *)
Definition finishSwitching (previous : option ModelId) (target : ModelId)
  (w : World) : Settled bool * World :=
  let (o, w1) := load w in
  match o with
  | Loaded b => (Fulfilled true, enter (Ready target b) w1)
  | LoadFailed c =>
      let fallback :=
        match previous with Some p => p | None => platformDefault end in
      let (o', w2) := load w1 in
      match o' with
      | Loaded b' =>
          (Rejected (ErrorObj (fallbackMessage fallback c)),
           enter (Ready fallback b') w2)
      | LoadFailed c' =>
          (Rejected (ErrorObj c'), enter (Failed fallback c') w2)
      end
  end.

(** Modelled from the spec: [switchModel(modelId)] of section 4.2,
    valid only from [Ready] or [Failed]. *)
Definition switchModel (target : ModelId) (w : World)
  : Settled bool * World :=
  match lifecycle w with
  | Ready prev _ =>
      finishSwitching (Some prev) target (enter (Switching prev target) w)
  | Failed m _ =>
      finishSwitching None target (enter (Switching m target) w)
  | _ =>
      (Rejected (ErrorObj (codes "switchModel: not Ready or Failed")), w)
  end.

(** Modelled from the spec: [initialize(modelId?)] of section 4.2.  A
    call that finds an operation in flight awaits that operation; a
    call that finds another model [Ready] is a switch, as
    [handleModelChange] uses it. *)
Definition initialize (modelId : option ModelId) (w : World)
  : Settled bool * World :=
  let target := selectModel (capabilities w) modelId in
  match lifecycle w with
  | Uninitialized | Failed _ _ =>
      finishInitializing target (enter (Initializing target) w)
  | Initializing m => finishInitializing m w
  | Ready m _ =>
      if modelEqb m target then (Fulfilled true, w) else switchModel target w
  | Switching prev to => finishSwitching (Some prev) to w
  end.

(** Modelled from the spec: [ensureReady()] of section 4.2. *)
Definition ensureReady (w : World) : Settled unit * World :=
  match lifecycle w with
  | Ready _ _ => (Fulfilled tt, w)
  | _ =>
      match initialize None w with
      | (Fulfilled _, w1) => (Fulfilled tt, w1)
      | (Rejected e, w1) => (Rejected e, w1)
      end
  end.

(** Modelled from the spec: the model a state speaks of. *)
Definition modelOf (s : LifecycleState) : ModelId :=
  match s with
  | Uninitialized => platformDefault
  | Initializing m | Ready m _ | Failed m _ => m
  | Switching _ to => to
  end.

(** Modelled from the spec: [status()] of section 4.2, a read of the
    state; the record has the fields the callers under [src/] read. *)
Definition status (w : World) : ModelInfo :=
  mkModelInfo (modelName (modelOf (lifecycle w)))
              (accelerated (capabilities w))
              (constrainedPlatform (capabilities w)).

(** Modelled from the spec: the black-box inference runtime of
    section 6, image buffer and model identifier in, processed buffer
    out, or an error. *)
Definition Runtime : Type := ModelId -> list byte -> Settled (list byte).

(** Modelled from the spec: one request taken through readiness and
    the runtime (section 4.3, steps 3 and 4). *)
Definition processOne (rt : Runtime) (f : File) (w : World)
  : Settled File * World :=
  match ensureReady w with
  | (Rejected e, w1) => (Rejected e, w1)
  | (Fulfilled _, w1) =>
      match rt (modelOf (lifecycle w1)) (fileBytes f) with
      | Fulfilled out =>
          (Fulfilled (mkFile out (fileName f) (codes "image/png")), w1)
      | Rejected e => (Rejected e, w1)
      end
  end.

(** Modelled from the spec: the three exports of [lib/process]. *)
Definition lib (rt : Runtime) : Lib World :=
  mkLib initialize (processOne rt) status.

End Lifecycle.

(* ================================================================== *)
(** ** [lib/process]: the Inference Request Queue *)

Module Queue.

Import Lifecycle.

(** Modelled from the spec: InferenceRequest of section 3, payload and
    sequence number (the queue code is not among the sources). *)
Record InferenceRequest := mkRequest { payload : File; seqNo : nat }.

(** Modelled from the spec: the calls into the runtime, as an
    instrumented runtime would log them. *)
Inductive Invocation := Started (seq : nat) | Finished (seq : nat).

(** Modelled from the spec: QueueState of section 3 with the state of
    the Lifecycle Manager, the results delivered so far and the log of
    runtime calls. *)
Record QueueState := mkQueue
  { pending : list InferenceRequest;
    executing : option InferenceRequest;
    nextSeq : nat;
    manager : World;
    delivered : list (nat * Settled (list byte));
    invocations : list Invocation }.

(** Modelled from the spec: what can happen next: a caller submits, the
    worker loop gets a turn, the runtime call in flight settles. *)
Inductive Action :=
| Submit (image : File)
| WorkerTurn
| RuntimeSettles (r : Settled (list byte)).

(** Modelled from the spec: section 4.3, step 1. *)
Definition submit (image : File) (q : QueueState) : QueueState :=
  mkQueue (pending q ++ [mkRequest image (nextSeq q)]) (executing q)
          (S (nextSeq q)) (manager q) (delivered q) (invocations q).

(** Modelled from the spec: section 4.3, steps 2 and 3: the worker
    takes the oldest pending request unless one is executing. *)
Definition workerTurn (q : QueueState) : QueueState :=
  match executing q, pending q with
  | None, r :: rest =>
      match ensureReady (manager q) with
      | (Rejected e, w) =>
          mkQueue rest None (nextSeq q) w
                  (delivered q ++ [(seqNo r, Rejected e)]) (invocations q)
      | (Fulfilled _, w) =>
          mkQueue rest (Some r) (nextSeq q) w (delivered q)
                  (invocations q ++ [Started (seqNo r)])
      end
  | _, _ => q
  end.

(** Modelled from the spec: section 4.3, step 4. *)
Definition runtimeSettles (r : Settled (list byte)) (q : QueueState)
  : QueueState :=
  match executing q with
  | Some req =>
      mkQueue (pending q) None (nextSeq q) (manager q)
              (delivered q ++ [(seqNo req, r)])
              (invocations q ++ [Finished (seqNo req)])
  | None => q
  end.

(** Modelled from the spec: the queue after one action. *)
Definition step (q : QueueState) (a : Action) : QueueState :=
  match a with
  | Submit image => submit image q
  | WorkerTurn => workerTurn q
  | RuntimeSettles r => runtimeSettles r q
  end.

(** Modelled from the spec: the queue at process start, and after a
    sequence of actions. *)
Definition start (w : World) : QueueState := mkQueue [] None 0 w [] [].

Definition runActions (w : World) (actions : list Action) : QueueState :=
  fold_left step actions (start w).

(** Runtime calls begun and not yet ended once [log] has been added to
    [n] calls already in flight. *)
Fixpoint inFlightFrom (n : nat) (log : list Invocation) : nat :=
  match log with
  | [] => n
  | Started _ :: t => inFlightFrom (S n) t
  | Finished _ :: t => inFlightFrom (Nat.pred n) t
  end.

Definition inFlight (log : list Invocation) : nat := inFlightFrom 0 log.

(** The call left in flight by a log. *)
Fixpoint openAfter (current : option nat) (log : list Invocation)
  : option nat :=
  match log with
  | [] => current
  | Started i :: t => openAfter (Some i) t
  | Finished _ :: t => openAfter None t
  end.

(** Each call ends before the next one begins: [current] is the call in
    flight, if any. *)
Fixpoint oneAtATime (current : option nat) (log : list Invocation) : bool :=
  match log, current with
  | [], _ => true
  | Started i :: t, None => oneAtATime (Some i) t
  | Started _ :: _, Some _ => false
  | Finished i :: t, Some j => Nat.eqb i j && oneAtATime None t
  | Finished _ :: _, None => false
  end.

(** What holds of the log in every state the queue can reach: the
    calls in it come one at a time, and a call is in flight exactly
    when a request is executing. *)
Record QueueInvariant (q : QueueState) : Prop := mkInvariant
  { inv_sequence : oneAtATime None (invocations q) = true;
    inv_open :
      openAfter None (invocations q) = option_map seqNo (executing q);
    inv_count :
      inFlight (invocations q)
        = match executing q with Some _ => 1 | None => 0 end;
    inv_prefix : forall k, inFlight (firstn k (invocations q)) <= 1 }.

End Queue.

(* ================================================================== *)
(** ** [src/App.tsx]: the connection to the parent and the model switch *)

Module App.

Local Open Scope async_scope.

(** An entry of [allowedOrigins]: a string or a regular expression,
    the latter taken as its [test]. *)
Inductive AllowedOrigin :=
| OriginString (s : JsString)
| OriginRegExp (test : JsString -> bool).

(** Penpal's [WindowMessenger]: the remote window is the parent; the
    messenger keeps the list of allowed origins. *)
Record WindowMessenger := mkMessenger
  { allowedOrigins : list AllowedOrigin }.

(** [new WindowMessenger({ remoteWindow, allowedOrigins })]: a list
    that is missing or empty is replaced by the origin of the page
    itself. *)
Definition newWindowMessenger (windowOrigin : JsString)
  (allowed : list AllowedOrigin) : WindowMessenger :=
  mkMessenger
    match allowed with
    | [] => [OriginString windowOrigin]
    | _ :: _ => allowed
    end.

(** Penpal's test of the origin of an incoming message: some entry of
    the list matches it, or is the string ["*"], which allows any
    origin. *)
Definition isAllowedOrigin (m : WindowMessenger) (origin : JsString) : bool :=
  existsb (fun allowed =>
             match allowed with
             | OriginRegExp test => test origin
             | OriginString s => Js.eqb s origin || Js.eqb s (codes "*")
             end)
          (allowedOrigins m).

Record Connection := mkConnection
  { messenger : WindowMessenger; methods : list (string * Method) }.

(** [connect({ messenger, methods })] *)
Definition connect (m : WindowMessenger) (ms : list (string * Method))
  : Connection := mkConnection m ms.

(** The effect of [App] that sets up Penpal: only when the page runs in
    an iframe ([window.parent !== window]); [windowOrigin] is the
    origin of the page. *)
Definition setupPenpal (inIframe : bool) (windowOrigin : JsString)
  : option Connection :=
  if inIframe then
    let messenger :=
      newWindowMessenger windowOrigin [OriginString (codes "*")] in
    Some (connect messenger penpalMethods)
  else None.

(** The handshake with a remote window of the given origin: the method
    set is handed over when the origin passes the messenger's test. *)
Definition handshake (c : Connection) (origin : JsString)
  : option (list (string * Method)) :=
  if isAllowedOrigin (messenger c) origin then Some (methods c) else None.

(** The state of [App] that [handleModelChange] touches. *)
Record Ui := mkUi
  { currentModel : ModelId;
    error : option JsString;
    isModelSwitching : bool }.

Definition setCurrentModel (m : ModelId) (u : Ui) : Ui :=
  mkUi m (error u) (isModelSwitching u).
Definition setError (e : option JsString) (u : Ui) : Ui :=
  mkUi (currentModel u) e (isModelSwitching u).
Definition setIsModelSwitching (b : bool) (u : Ui) : Ui :=
  mkUi (currentModel u) (error u) b.

(** [err instanceof Error && err.message.includes("Falling back")] *)
Definition saysFallingBack (err : Thrown) : bool :=
  match err with
  | ErrorObj m => includes (codes "Falling back") m
  | NonError => false
  end.

(** [handleModelChange]; [initializeModel] here is the export of
    [lib/process] itself. *)
Definition handleModelChange (newModel : ModelId) (u : Ui) : Async Ui :=
  let u := setIsModelSwitching true u in
  let u := setError None u in
  u' <- (try (
           initialized <- initModel (Some newModel) ;;
           if negb initialized
           then Reject (ErrorObj (codes "Failed to initialize new model"))
           else Resolve (setCurrentModel newModel u)
         ) catch (fun err =>
           if saysFallingBack err
           then Resolve (setCurrentModel RMBG_1_4 u)
           else Resolve
                  (setError
                     (Some (messageOr err (codes "Failed to switch models")))
                     u))) ;;
  Resolve (setIsModelSwitching false u').

End App.

(* ================================================================== *)
(** ** Reference readings of the marshalling *)

Module Reading.

(** [s.indexOf(p)], [None] for -1. *)
Fixpoint indexOf (p s : JsString) : option nat :=
  if startsWith p s then Some 0
  else match s with
       | [] => None
       | _ :: s' => option_map S (indexOf p s')
       end.

(** The text after the first marker, the whole text when there is no
    marker: "strip everything up to and including the first marker". *)
Definition afterFirstMarker (s : JsString) : JsString :=
  match indexOf marker s with
  | None => s
  | Some i => skipn (i + length marker) s
  end.

(** The text between the first marker and the next one, or the end of
    the text when no second marker follows. *)
Definition betweenMarkers (s : JsString) : JsString :=
  match indexOf marker s with
  | None => s
  | Some i =>
      let r := skipn (i + length marker) s in
      match indexOf marker r with
      | None => r
      | Some j => firstn j r
      end
  end.

(** A binary string as [Uint8Array] contents and back. *)
Definition binaryString (bs : list byte) : JsString := map Byte.to_N bs.

(** What [convertToFile] makes of decoded text. *)
Definition pngFile (decoded : option JsString) : Settled File :=
  match decoded with
  | None => Rejected invalidCharacterError
  | Some byteString =>
      Fulfilled (mkFile (map toUint8 byteString) (codes "input-image.png")
                        (codes "image/png"))
  end.

Definition isByte (n : N) : Prop := (n < 256)%N.
Definition isSextet (n : N) : Prop := (n < 64)%N.

(** The text contains a comma. *)
Definition hasComma (s : JsString) : bool := existsb (N.eqb 44) s.

(** [processImage] looks at the contents and the name of the file it is
    given, not at its declared type. *)
Definition readsContents {W} (lib : Lib W) : Prop :=
  forall f g w,
    fileBytes f = fileBytes g -> fileName f = fileName g ->
    lib_processImage lib f w = lib_processImage lib g w.











(** The file [convertToFile] makes of the bytes of a string payload. *)
Definition inputPng (bs : list byte) : File :=
  mkFile bs (codes "input-image.png") (codes "image/png").

(** The result of [removeBackgroundAsBlob] put through
    [fileToBase64]. *)
Definition asDataURL (r : Settled File) : Settled JsString :=
  match r with
  | Fulfilled f => Fulfilled (readAsDataURL f)
  | Rejected e => Rejected e
  end.

(** The wrappers' [catch]: the error is logged and thrown anew. *)
Definition rethrown (e : Thrown) : Thrown :=
  ErrorObj (messageOr e (codes "Failed to remove background")).

End Reading.

Import Reading.

(* ================================================================== *)
(** ** Sample states *)

Module Samples.

Import Lifecycle.

(** A general platform before any initialization, with the outcomes of
    the load attempts to come. *)
Definition freshWorld (script : list LoadOutcome) : World :=
  mkWorld (mkCapabilities true false) Uninitialized [] script.

(** A platform on which [current] is ready. *)
Definition readyWorld (current : ModelId) (script : list LoadOutcome)
  : World :=
  mkWorld (mkCapabilities true false) (Ready current CpuFallback) [] script.

(** A runtime that hands back the buffer reversed. *)
Definition mirror : Runtime := fun _ image => Fulfilled (rev image).

Definition abc : list byte := [x41; x42; x43].

(** A stand-in for [lib/process] without a state of its own:
    [initializeModel] resolves [ready], [processImage] resolves the
    image it is given under the media type [outType]. *)
Definition stub (ready : bool) (outType : JsString) : Lib unit :=
  mkLib (fun _ w => (Fulfilled ready, w))
        (fun f w => (Fulfilled (mkFile (fileBytes f) (fileName f) outType), w))
        (fun _ => mkModelInfo (modelName RMBG_1_4) false false).

End Samples.

(* ================================================================== *)
(** ** [src/App.tsx]: the list of images *)

Module Gallery.

(** [ImageFile]: [id] is a number, [processedFile] is optional. *)
Record ImageFile := mkImage
  { id : N; file : File; processedFile : option File }.

(** The state of [App] that the image handlers touch; [error] is held
    in the part [handleModelChange] shares. *)
Record AppState := mkAppState
  { ui : App.Ui;
    isLoading : bool;
    isWebGPU : bool;
    images : list ImageFile }.

Definition setImages (imgs : list ImageFile) (st : AppState) : AppState :=
  mkAppState (ui st) (isLoading st) (isWebGPU st) imgs.
Definition setIsLoading (b : bool) (st : AppState) : AppState :=
  mkAppState (ui st) b (isWebGPU st) (images st).
Definition setIsWebGPU (b : bool) (st : AppState) : AppState :=
  mkAppState (ui st) (isLoading st) b (images st).
Definition setError (e : option JsString) (st : AppState) : AppState :=
  mkAppState (App.setError e (ui st)) (isLoading st) (isWebGPU st)
             (images st).

(** [lib/process] as [App.tsx] imports it: [initializeModel] and
    [getModelInfo] as before, and [processImages], whose result the
    handler tests for being falsy ([None]) and for being empty. *)
Record AppLib (W : Type) := mkAppLib
  { service : Lib W;
    lib_processImages :
      list File -> W -> Settled (option (list File)) * W }.

(** What a run of a handler did, in order. *)
Inductive AppEvent :=
| InitializeModelCalled (modelId : option ModelId) (r : Settled bool)
| GetModelInfoCalled
| ProcessImagesCalled (files : list File) (r : Settled (option (list File)))
| ErrorLogged (label : JsString) (e : Thrown).

(** [acceptedFiles.map((file, index) => ({ id: Date.now() + index,
    file, processedFile: undefined }))], from position [index] on;
    [clock i] is what [Date.now()] returns in the callback for
    position [i]. *)
Fixpoint stamp (clock : nat -> N) (index : nat) (acceptedFiles : list File)
  : list ImageFile :=
  match acceptedFiles with
  | [] => []
  | f :: rest =>
      mkImage (clock index + N.of_nat index) f None
        :: stamp clock (S index) rest
  end.

(** [prev.map(img => img.id === image.id
      ? { ...img, processedFile: result[0] } : img)] *)
Definition setProcessed (target : N) (result : File) (prev : list ImageFile)
  : list ImageFile :=
  map (fun img =>
         if (id img =? target)%N
         then mkImage (id img) (file img) (Some result)
         else img)
      prev.

(** The [for] loop of [onDrop]: one awaited [processImages([file])]
    for each new image; a rejection is logged and the loop goes on. *)
Fixpoint processEach {W} (lib : AppLib W) (newImages : list ImageFile)
  (st : AppState) (w : W) : AppState * W * list AppEvent :=
  match newImages with
  | [] => (st, w, [])
  | image :: rest =>
      let (r, w1) := lib_processImages lib [file image] w in
      let st1 :=
        match r with
        | Fulfilled (Some (first :: _)) =>
            setImages (setProcessed (id image) first (images st)) st
        | _ => st
        end in
      let logged :=
        match r with
        | Rejected e => [ErrorLogged (codes "Error processing image:") e]
        | Fulfilled _ => []
        end in
      let '(st2, w2, t) := processEach lib rest st1 w1 in
      (st2, w2, ProcessImagesCalled [file image] r :: logged ++ t)
  end.

(** [onDrop], run on the state it was rendered with, so that
    [images.length] of its closure is the length of [images st]. *)
Definition onDrop {W} (lib : AppLib W) (clock : nat -> N)
  (acceptedFiles : list File) (st : AppState) (w : W)
  : AppState * W * list AppEvent :=
  let newImages := stamp clock 0 acceptedFiles in
  let firstImage := (length (images st) =? 0)%nat in
  let st := setImages (images st ++ newImages) st in
  if firstImage then
    let st := setError None (setIsLoading true st) in
    let (r, w1) := lib_initModel (service lib) None w in
    let failed (err : Thrown) :=
      (setIsLoading false
         (setImages []
            (setError
               (Some (messageOr err (codes "An unknown error occurred")))
               st)),
       w1, [InitializeModelCalled None r]) in
    match r with
    | Fulfilled true =>
        let info := lib_getModelInfo (service lib) w1 in
        let st := setIsLoading false
                    (setIsWebGPU (isWebGPUSupported info) st) in
        let '(st', w', t) := processEach lib newImages st w1 in
        (st', w', InitializeModelCalled None r :: GetModelInfoCalled :: t)
    | Fulfilled false =>
        failed
          (ErrorObj
             (codes "Failed to initialize background removal model"))
    | Rejected e => failed e
    end
  else processEach lib newImages st w.







(** [Date.now()] does not go backwards. *)
Definition monotone (clock : nat -> N) : Prop :=
  forall i j, i <= j -> (clock i <= clock j)%N.

End Gallery.

(* ================================================================== *)
(** ** Observations on runs of the service *)

Module Observed.

(** The character is kept by [atob]'s removal of whitespace. *)
Definition kept (c : N) : bool := negb (Base64.isAsciiWhitespace c).

(** Base64 text without the padding. *)
Definition encodeUnpadded (bs : list byte) : JsString :=
  map Base64.b64char (Base64.sextetsOf (map Byte.to_N bs)).

(** The values [console.error] was given in a run. *)
Definition logged (t : list Event) : list Thrown :=
  flat_map (fun e => match e with Logged _ x => [x] | _ => [] end) t.

(** The files [processImage] was given in a run. *)
Definition processed (t : list Event) : list File :=
  flat_map
    (fun e => match e with CalledProcessImage f _ => [f] | _ => [] end) t.

(** The model identifiers [initModel] was given in a run. *)
Definition initialized (t : list Event) : list (option ModelId) :=
  flat_map
    (fun e => match e with CalledInitModel m _ => [m] | _ => [] end) t.

(** The error a settled promise was rejected with, if it was. *)
Definition rejection {A} (r : Settled A) : list Thrown :=
  match r with
  | Rejected e => [e]
  | Fulfilled _ => []
  end.

Definition isError (e : Thrown) : bool :=
  match e with ErrorObj _ => true | NonError => false end.

(** A sample library for [App.tsx], on the Lifecycle Manager above:
    its [processImages] takes each file through [processOne] and
    rejects with the first error. *)
Fixpoint processAll (rt : Lifecycle.Runtime) (files : list File)
  (w : Lifecycle.World) : Settled (list File) * Lifecycle.World :=
  match files with
  | [] => (Fulfilled [], w)
  | f :: rest =>
      match Lifecycle.processOne rt f w with
      | (Rejected e, w1) => (Rejected e, w1)
      | (Fulfilled out, w1) =>
          match processAll rt rest w1 with
          | (Rejected e, w2) => (Rejected e, w2)
          | (Fulfilled outs, w2) => (Fulfilled (out :: outs), w2)
          end
      end
  end.

Definition appLib (rt : Lifecycle.Runtime) : Gallery.AppLib Lifecycle.World :=
  Gallery.mkAppLib (Lifecycle.lib rt)
    (fun files w =>
       match processAll rt files w with
       | (Fulfilled outs, w1) => (Fulfilled (Some outs), w1)
       | (Rejected e, w1) => (Rejected e, w1)
       end).


End Observed.

(** Division and remainder by constants are left to [lia]. *)
Ltac Zify.zify_post_hook ::= Z.to_euclidean_division_equations.

(** Equal lists of numbers, element by element. *)
Ltac conses :=
  repeat (apply (f_equal2 (@cons N)); [lia|]); reflexivity.

(* ================================================================== *)
(** ** Strings: [startsWith], [indexOf], [includes], [split] *)

Lemma startsWith_app (p t : JsString) : startsWith p (p ++ t) = true.
Proof.
  induction p as [|a p IH]; simpl; [reflexivity|].
  now rewrite N.eqb_refl, IH.
Qed.

Lemma startsWith_inv (p s : JsString) :
  startsWith p s = true -> exists t, s = p ++ t.
Proof.
  revert s; induction p as [|a p IH]; intros s H.
  - now exists s.
  - destruct s as [|b s]; simpl in H; [discriminate|].
    apply andb_true_iff in H as [Hab Hps].
    apply N.eqb_eq in Hab; subst b.
    destruct (IH _ Hps) as [t ->]. now exists t.
Qed.

Lemma startsWith_length (p s : JsString) :
  startsWith p s = true -> length p <= length s.
Proof.
  intros H. destruct (startsWith_inv _ _ H) as [t ->].
  rewrite length_app. lia.
Qed.

Lemma includes_indexOf (p s : JsString) :
  includes p s = match indexOf p s with Some _ => true | None => false end.
Proof.
  induction s as [|c s IH]; simpl.
  - destruct (startsWith p []); reflexivity.
  - destruct (startsWith p (c :: s)); simpl; [reflexivity|].
    rewrite IH. now destruct (indexOf p s).
Qed.

(** Inside a matched separator the scan only counts down. *)
Lemma split_scan_skip (sep : JsString) (k : nat) (cur s : JsString) :
  k <= length s ->
  split_scan sep k cur s = split_scan sep 0 cur (skipn k s).
Proof.
  revert s; induction k as [|k IH]; intros s Hk; [reflexivity|].
  destruct s as [|c s]; simpl in *; [lia|].
  apply IH. lia.
Qed.

(** The scan cuts at the first occurrence of the separator and starts
    afresh behind it. *)
Lemma split_scan_indexOf (sep : JsString) (cur s : JsString) :
  sep <> [] ->
  split_scan sep 0 cur s =
    match indexOf sep s with
    | None => [rev cur ++ s]
    | Some i =>
        (rev cur ++ firstn i s)
          :: split_scan sep 0 [] (skipn (i + length sep) s)
    end.
Proof.
  intros Hsep. revert cur; induction s as [|c s IH]; intros cur.
  - simpl. destruct sep as [|a sep]; [contradiction|]. simpl.
    now rewrite app_nil_r.
  - cbn [split_scan indexOf].
    destruct (startsWith sep (c :: s)) eqn:E.
    + cbn [firstn]. rewrite app_nil_r. f_equal.
      apply startsWith_length in E.
      destruct sep as [|a sep]; [contradiction|].
      cbn [length] in *. rewrite Nat.sub_succ, Nat.sub_0_r.
      rewrite split_scan_skip by (cbn [length] in E; lia).
      reflexivity.
    + rewrite IH. destruct (indexOf sep s) as [i|]; cbn [option_map].
      * cbn [rev firstn]. rewrite <- app_assoc. reflexivity.
      * cbn [rev]. rewrite <- app_assoc. reflexivity.
Qed.

Lemma split_indexOf (sep s : JsString) :
  sep <> [] ->
  split sep s =
    match indexOf sep s with
    | None => [s]
    | Some i => firstn i s :: split sep (skipn (i + length sep) s)
    end.
Proof.
  intros H. unfold split. rewrite split_scan_indexOf by assumption.
  reflexivity.
Qed.

Lemma marker_nonempty : marker <> [].
Proof. discriminate. Qed.

(** The text [convertToFile] hands to [atob]. *)
Lemma base64Data_betweenMarkers (s : JsString) :
  base64Data s = betweenMarkers s.
Proof.
  unfold base64Data, betweenMarkers, secondPart.
  rewrite includes_indexOf, (split_indexOf _ marker_nonempty).
  destruct (indexOf marker s) as [i|]; [|reflexivity].
  rewrite (split_indexOf _ marker_nonempty).
  now destruct (indexOf marker (skipn (i + length marker) s)).
Qed.

Lemma indexOf_Some_split (p s : JsString) (i : nat) :
  indexOf p s = Some i ->
  exists a b, s = a ++ p ++ b /\ length a = i.
Proof.
  revert i; induction s as [|c s IH]; intros i; simpl.
  - destruct (startsWith p []) eqn:E; [|discriminate].
    intros [= <-]. destruct (startsWith_inv _ _ E) as [t Ht].
    now exists [], t.
  - destruct (startsWith p (c :: s)) eqn:E.
    + intros [= <-]. destruct (startsWith_inv _ _ E) as [t Ht].
      now exists [], t.
    + destruct (indexOf p s) as [j|]; simpl; [|discriminate].
      intros [= <-]. destruct (IH j eq_refl) as (a & b & -> & <-).
      now exists (c :: a), b.
Qed.

Lemma hasComma_app (a b : JsString) :
  hasComma (a ++ b) = hasComma a || hasComma b.
Proof. apply existsb_app. Qed.

(** A text without a comma holds no marker. *)
Lemma indexOf_marker_no_comma (s : JsString) :
  hasComma s = false -> indexOf marker s = None.
Proof.
  intros H. destruct (indexOf marker s) as [i|] eqn:E; [|reflexivity].
  destruct (indexOf_Some_split _ _ E) as (a & b & -> & _).
  rewrite !hasComma_app in H.
  apply orb_false_iff in H as [_ H]. apply orb_false_iff in H as [H _].
  discriminate.
Qed.

Lemma startsWith_marker_comma (s : JsString) :
  startsWith marker s = true -> nth_error s 6 = Some 44%N.
Proof.
  intros H. destruct (startsWith_inv _ _ H) as [t ->]. reflexivity.
Qed.

Lemma no_marker_within (pre rest : JsString) :
  pre <> [] -> hasComma pre = false ->
  startsWith marker (pre ++ marker ++ rest) = false.
Proof.
  intros Hne Hc.
  destruct (startsWith marker (pre ++ marker ++ rest)) eqn:E; [|reflexivity].
  apply startsWith_marker_comma in E.
  destruct (Nat.lt_ge_cases 6 (length pre)) as [Hlt|Hge].
  - rewrite nth_error_app1 in E by assumption.
    apply nth_error_In in E.
    assert (hasComma pre = true) as Ht
        by (apply existsb_exists; exists 44%N; split; [assumption|reflexivity]).
    congruence.
  - rewrite nth_error_app2 in E by assumption.
    assert (length pre <> 0) by (destruct pre; [contradiction|discriminate]).
    destruct (6 - length pre) as [|[|[|[|[|[|n]]]]]] eqn:K;
      try discriminate E.
    lia.
Qed.

Lemma indexOf_startsWith (p s : JsString) :
  startsWith p s = true -> indexOf p s = Some 0.
Proof. intros H. destruct s; simpl; now rewrite H. Qed.

(** Behind a prefix without a comma, the first marker is the one that
    follows the prefix. *)
Lemma indexOf_marker_after_prefix (pre rest : JsString) :
  hasComma pre = false ->
  indexOf marker (pre ++ marker ++ rest) = Some (length pre).
Proof.
  induction pre as [|c pre IH]; intros Hc.
  - cbn [app length]. apply indexOf_startsWith, startsWith_app.
  - assert (hasComma pre = false) as Hc'.
    { change (hasComma ([c] ++ pre) = false) in Hc.
      rewrite hasComma_app in Hc. now apply orb_false_iff in Hc. }
    change ((c :: pre) ++ marker ++ rest)
      with (c :: (pre ++ marker ++ rest)).
    cbn [indexOf].
    change (c :: (pre ++ marker ++ rest))
      with ((c :: pre) ++ marker ++ rest).
    rewrite no_marker_within by (assumption || discriminate).
    rewrite (IH Hc'). reflexivity.
Qed.

Lemma betweenMarkers_one_marker (pre payload : JsString) :
  hasComma pre = false -> hasComma payload = false ->
  betweenMarkers (pre ++ marker ++ payload) = payload.
Proof.
  intros Hpre Hpay. unfold betweenMarkers.
  rewrite (indexOf_marker_after_prefix _ _ Hpre).
  rewrite skipn_app, skipn_all2 by lia.
  replace (length pre + length marker - length pre) with (length marker)
    by lia.
  rewrite skipn_app, skipn_all, Nat.sub_diag. cbn [skipn app].
  now rewrite (indexOf_marker_no_comma _ Hpay).
Qed.

(* ================================================================== *)
(** ** Base64: decoding what was encoded *)

Lemma b64val_b64char (v : N) :
  (v < 64)%N -> Base64.b64val (Base64.b64char v) = Some v.
Proof.
  intros H. unfold Base64.b64char, Base64.b64val.
  repeat match goal with
         | |- context [(?a <? ?b)%N] => destruct (N.ltb_spec a b)
         | |- context [(?a <=? ?b)%N] => destruct (N.leb_spec a b)
         | |- context [(?a =? ?b)%N] => destruct (N.eqb_spec a b)
         | _ => progress cbn [andb]
         end; try (f_equal; lia); try lia.
Qed.

Lemma b64char_alphabet (v : N) :
  Base64.isAsciiWhitespace (Base64.b64char v) = false
  /\ (Base64.b64char v =? 61)%N = false
  /\ (Base64.b64char v =? 44)%N = false.
Proof.
  unfold Base64.b64char, Base64.isAsciiWhitespace.
  repeat match goal with
         | |- context [(v <? ?b)%N] => destruct (N.ltb_spec v b)
         | |- context [(v =? ?b)%N] => destruct (N.eqb_spec v b)
         end;
    repeat match goal with
           | |- context [(?a =? ?b)%N] => destruct (N.eqb_spec a b); try lia
           end;
    cbn; repeat split; reflexivity.
Qed.

(** Lists three elements at a time. *)
Lemma list_ind3 (A : Type) (P : list A -> Prop) :
  P [] -> (forall a, P [a]) -> (forall a b, P [a; b]) ->
  (forall a b c l, P l -> P (a :: b :: c :: l)) ->
  forall l, P l.
Proof.
  intros H0 H1 H2 H3.
  fix IH 1.
  intros [|a [|b [|c l]]];
    [exact H0 | apply H1 | apply H2 | apply H3, IH].
Qed.

Lemma sextetsOf_sextets (l : list N) :
  Forall isByte l -> Forall isSextet (Base64.sextetsOf l).
Proof.
  unfold isByte, isSextet.
  induction l as [|a|a b|a b c l IH] using list_ind3; intros H; cbn.
  - constructor.
  - inversion_clear H. repeat constructor; lia.
  - inversion_clear H as [|? ? Ha H']. inversion_clear H'.
    repeat constructor; lia.
  - inversion_clear H as [|? ? Ha H']. inversion_clear H' as [|? ? Hb H''].
    inversion_clear H'' as [|? ? Hc Hl].
    repeat (constructor; [lia|]). now apply IH.
Qed.

Lemma bytesOf_sextetsOf (l : list N) :
  Forall isByte l -> Base64.bytesOf (Base64.sextetsOf l) = l.
Proof.
  unfold isByte.
  induction l as [|a|a b|a b c l IH] using list_ind3; intros H.
  - reflexivity.
  - inversion_clear H. cbn. conses.
  - inversion_clear H as [|? ? Ha H']. inversion_clear H'.
    cbn. conses.
  - inversion_clear H as [|? ? Ha H']. inversion_clear H' as [|? ? Hb H''].
    inversion_clear H'' as [|? ? Hc Hl].
    cbn [Base64.sextetsOf app Base64.bytesOf].
    rewrite (IH Hl). conses.
Qed.

Lemma valuesOf_b64char (vs : list N) :
  Forall isSextet vs -> Base64.valuesOf (map Base64.b64char vs) = Some vs.
Proof.
  induction 1 as [|v vs Hv _ IH]; cbn; [reflexivity|].
  now rewrite (b64val_b64char Hv), IH.
Qed.

Lemma padding_3 (n : nat) : Base64.padding (3 + n) = Base64.padding n.
Proof.
  unfold Base64.padding.
  replace ((3 + n) mod 3) with (n mod 3) by lia. reflexivity.
Qed.

(** Length of the encoded text: a multiple of four, and the part before
    the padding never leaves a single character over. *)
Lemma sextetsOf_length (l : list N) :
  (length (Base64.sextetsOf l) + length (Base64.padding (length l))) mod 4 = 0
  /\ length (Base64.sextetsOf l) mod 4 <> 1.
Proof.
  induction l as [|a|a b|a b c l IH] using list_ind3;
    try (cbn; split; [reflexivity|discriminate]).
  cbn [Base64.sextetsOf]. rewrite length_app.
  change (length (a :: b :: c :: l)) with (3 + length l).
  rewrite padding_3. cbn [length]. destruct IH as [IH1 IH2]. split; lia.
Qed.

Lemma filter_all (A : Type) (f : A -> bool) (l : list A) :
  Forall (fun x => f x = true) l -> filter f l = l.
Proof.
  induction 1 as [|x l Hx _ IH]; cbn; [reflexivity|].
  now rewrite Hx, IH.
Qed.

Lemma padding_cases (n : nat) :
  Base64.padding n = [] \/ Base64.padding n = [61%N]
  \/ Base64.padding n = [61%N; 61%N].
Proof.
  unfold Base64.padding. destruct (n mod 3) as [|[|[|k]]]; auto.
Qed.

Lemma stripPadding_body (body pad : JsString) :
  Forall (fun c => (c =? 61)%N = false) body ->
  pad = [] \/ pad = [61%N] \/ pad = [61%N; 61%N] ->
  Base64.stripPadding (body ++ pad) = body.
Proof.
  intros Hbody Hpad.
  assert (forall c r, rev body = c :: r -> (c =? 61)%N = false) as Hlast.
  { intros c r E. rewrite Forall_forall in Hbody. apply Hbody.
    apply in_rev. rewrite E. now left. }
  unfold Base64.stripPadding. rewrite rev_app_distr.
  destruct Hpad as [-> | [-> | ->]]; cbn [rev app].
  - rewrite app_nil_r. destruct (rev body) as [|c r] eqn:E; [reflexivity|].
    now rewrite (Hlast c r eq_refl).
  - cbn. destruct (rev body) as [|c r] eqn:E.
    + now rewrite <- (rev_involutive body), E.
    + rewrite (Hlast c r eq_refl). now rewrite <- E, rev_involutive.
  - cbn. now rewrite rev_involutive.
Qed.

Lemma to_N_isByte (bs : list byte) : Forall isByte (map Byte.to_N bs).
Proof.
  apply Forall_forall. intros n Hn. apply in_map_iff in Hn as (b & <- & _).
  pose proof (Byte.to_N_bounded b). unfold isByte. lia.
Qed.

(** [atob] undoes the base64 encoding. *)
Lemma atob_encode (bs : list byte) :
  Base64.atob (Base64.encode bs) = Some (binaryString bs).
Proof.
  unfold Base64.atob, Base64.encode, binaryString.
  set (l := map Byte.to_N bs).
  assert (Forall isByte l) as Hl by apply to_N_isByte.
  set (body := map Base64.b64char (Base64.sextetsOf l)).
  assert (Forall (fun c => (c =? 61)%N = false) body) as Hbody.
  { apply Forall_forall. intros c Hc. apply in_map_iff in Hc as (v & <- & _).
    apply b64char_alphabet. }
  assert (Forall (fun c => negb (Base64.isAsciiWhitespace c) = true)
                 (body ++ Base64.padding (length bs))) as Hws.
  { apply Forall_app. split.
    - apply Forall_forall. intros c Hc.
      apply in_map_iff in Hc as (v & <- & _).
      now rewrite (proj1 (b64char_alphabet v)).
    - destruct (padding_cases (length bs)) as [-> | [-> | ->]];
        repeat constructor. }
  rewrite (filter_all _ Hws).
  destruct (sextetsOf_length l) as [Hlen4 Hlen1].
  assert (length (body ++ Base64.padding (length bs)) mod 4 = 0) as E.
  { rewrite length_app. unfold body. rewrite length_map.
    unfold l in Hlen4. now rewrite length_map in Hlen4. }
  rewrite E. cbn [Nat.eqb].
  rewrite (stripPadding_body Hbody (padding_cases _)).
  unfold body at 1. rewrite length_map.
  destruct (length (Base64.sextetsOf l) mod 4 =? 1) eqn:E1.
  - apply Nat.eqb_eq in E1. contradiction.
  - unfold body. rewrite (valuesOf_b64char (sextetsOf_sextets Hl)).
    cbn [option_map]. now rewrite (bytesOf_sextetsOf Hl).
Qed.

Lemma toUint8_to_N (b : byte) : toUint8 (Byte.to_N b) = b.
Proof.
  unfold toUint8. pose proof (Byte.to_N_bounded b).
  rewrite N.mod_small by lia. now rewrite Byte.of_to_N.
Qed.

Lemma toUint8_binaryString (bs : list byte) :
  map toUint8 (binaryString bs) = bs.
Proof.
  unfold binaryString. rewrite map_map.
  rewrite (map_ext _ (fun b => b) toUint8_to_N). apply map_id.
Qed.

Lemma encode_no_comma (bs : list byte) : hasComma (Base64.encode bs) = false.
Proof.
  unfold Base64.encode. rewrite hasComma_app. apply orb_false_iff. split.
  - unfold hasComma. apply not_true_is_false. intros H.
    apply existsb_exists in H as (c & Hc & Hx).
    apply in_map_iff in Hc as (v & <- & _).
    rewrite N.eqb_sym in Hx.
    now rewrite (proj2 (proj2 (b64char_alphabet v))) in Hx.
  - destruct (padding_cases (length bs)) as [-> | [-> | ->]]; reflexivity.
Qed.

(* ================================================================== *)
(** ** The service wrappers, run against any [lib/process] *)

Section Wrappers.

Context {W : Type} (lib : Lib W).

(** The course of [removeBackground]: [initModel()] first, then the
    conversion, then [processImage], then the data URL. *)
Lemma run_removeBackground (x : ImageData) (w : W) :
  run lib (removeBackground x) w =
    let (r, w1) := lib_initModel lib None w in
    match r with
    | Rejected e =>
        (Rejected (rethrown e), w1,
         [CalledInitModel None r;
          Logged (codes "Error in removeBackground:") e])
    | Fulfilled _ =>
        match convertToFile x with
        | Rejected e =>
            (Rejected (rethrown e), w1,
             [CalledInitModel None r;
              Logged (codes "Error in removeBackground:") e])
        | Fulfilled f =>
            let (r2, w2) := lib_processImage lib f w1 in
            match r2 with
            | Rejected e =>
                (Rejected (rethrown e), w2,
                 [CalledInitModel None r; CalledProcessImage f r2;
                  Logged (codes "Error in removeBackground:") e])
            | Fulfilled pf =>
                (Fulfilled (readAsDataURL pf), w2,
                 [CalledInitModel None r; CalledProcessImage f r2])
            end
        end
    end.
Proof.
  unfold removeBackground. cbn [initModel tryCatch bind run].
  destruct (lib_initModel lib None w) as [[b|e] w1]; cbn; [|reflexivity].
  destruct (convertToFile x) as [f|e]; cbn; [|reflexivity].
  destruct (lib_processImage lib f w1) as [[pf|e] w2]; reflexivity.
Qed.

Lemma run_removeBackgroundAsBlob (x : ImageData) (w : W) :
  run lib (removeBackgroundAsBlob x) w =
    let (r, w1) := lib_initModel lib None w in
    match r with
    | Rejected e =>
        (Rejected (rethrown e), w1,
         [CalledInitModel None r;
          Logged (codes "Error in removeBackgroundAsBlob:") e])
    | Fulfilled _ =>
        match convertToFile x with
        | Rejected e =>
            (Rejected (rethrown e), w1,
             [CalledInitModel None r;
              Logged (codes "Error in removeBackgroundAsBlob:") e])
        | Fulfilled f =>
            let (r2, w2) := lib_processImage lib f w1 in
            match r2 with
            | Rejected e =>
                (Rejected (rethrown e), w2,
                 [CalledInitModel None r; CalledProcessImage f r2;
                  Logged (codes "Error in removeBackgroundAsBlob:") e])
            | Fulfilled pf =>
                (Fulfilled pf, w2,
                 [CalledInitModel None r; CalledProcessImage f r2])
            end
        end
    end.
Proof.
  unfold removeBackgroundAsBlob. cbn [initModel tryCatch bind run].
  destruct (lib_initModel lib None w) as [[b|e] w1]; cbn; [|reflexivity].
  destruct (convertToFile x) as [f|e]; cbn; [|reflexivity].
  destruct (lib_processImage lib f w1) as [[pf|e] w2]; reflexivity.
Qed.

Lemma run_initializeModel (modelId : option ModelId) (w : W) :
  run lib (initializeModel modelId) w =
    let (r, w1) := lib_initModel lib modelId w in
    match r with
    | Fulfilled b => (Fulfilled b, w1, [CalledInitModel modelId r])
    | Rejected e =>
        (Rejected
           (ErrorObj (messageOr e (codes "Failed to initialize model"))),
         w1,
         [CalledInitModel modelId r;
          Logged (codes "Error initializing model:") e])
    end.
Proof.
  unfold initializeModel. cbn [initModel tryCatch bind run].
  destruct (lib_initModel lib modelId w) as [[b|e] w1]; reflexivity.
Qed.

End Wrappers.

(* ================================================================== *)
(** ** Input and output marshalling *)

Lemma convertToFile_string (s : JsString) :
  convertToFile (Str s) = pngFile (Base64.atob (betweenMarkers s)).
Proof.
  unfold convertToFile, pngFile. rewrite base64Data_betweenMarkers.
  now destruct (Base64.atob (betweenMarkers s)).
Qed.

Lemma convertToFile_encode (bs : list byte) :
  convertToFile (Str (Base64.encode bs)) = Fulfilled (inputPng bs).
Proof.
  rewrite convertToFile_string. unfold betweenMarkers.
  rewrite (indexOf_marker_no_comma _ (encode_no_comma bs)), atob_encode.
  cbn [pngFile]. now rewrite toUint8_binaryString.
Qed.

Lemma convertToFile_prefixed (pre : JsString) (bs : list byte) :
  hasComma pre = false ->
  convertToFile (Str (pre ++ marker ++ Base64.encode bs))
    = Fulfilled (inputPng bs).
Proof.
  intros Hpre. rewrite convertToFile_string.
  rewrite (betweenMarkers_one_marker _ _ Hpre (encode_no_comma bs)).
  rewrite atob_encode. cbn [pngFile]. now rewrite toUint8_binaryString.
Qed.

Lemma betweenMarkers_afterFirstMarker (s : JsString) :
  betweenMarkers s =
    match indexOf marker (afterFirstMarker s) with
    | None => afterFirstMarker s
    | Some j => firstn j (afterFirstMarker s)
    end.
Proof.
  unfold betweenMarkers, afterFirstMarker.
  destruct (indexOf marker s) as [i|] eqn:E; [reflexivity|].
  now rewrite E.
Qed.

(** C9, as amended.  A string payload is cut behind its first
    ['base64,'] and, when a further ['base64,'] follows, in front of
    that one; the piece is decoded as base64 and wrapped as the file
    ['input-image.png'] of type ['image/png'], whatever the image is.
    A bare base64 text is thus taken whole and a data URL without its
    prefix, and both give back the encoded bytes.  A [Blob] payload
    keeps its bytes and its declared type, ['image/png'] standing in
    for an empty type. *)
Theorem convertToFile_marshalling (s : JsString) (bs : list byte) (b : Blob) :
  convertToFile (Str s) = pngFile (Base64.atob (betweenMarkers s))
  /\ betweenMarkers s =
       match indexOf marker (afterFirstMarker s) with
       | None => afterFirstMarker s
       | Some j => firstn j (afterFirstMarker s)
       end
  /\ convertToFile (Str (Base64.encode bs))
       = Fulfilled (mkFile bs (codes "input-image.png") (codes "image/png"))
  /\ convertToFile
       (Str (codes "data:image/png;base64," ++ Base64.encode bs))
       = Fulfilled (mkFile bs (codes "input-image.png") (codes "image/png"))
  /\ convertToFile (Bin b)
       = Fulfilled (mkFile (blobBytes b) (codes "input-image.png")
                           (match blobType b with
                            | [] => codes "image/png"
                            | _ :: _ => blobType b
                            end)).
Proof.
  split; [apply convertToFile_string|].
  split; [apply betweenMarkers_afterFirstMarker|].
  split; [apply convertToFile_encode|].
  split; [apply (convertToFile_prefixed (codes "data:image/png;") bs eq_refl)|].
  cbn [convertToFile]. unfold orElse. now destruct (blobType b).
Qed.

(** C9, as stated, fails: with two markers in the payload the text
    after the first marker is not base64, yet [convertToFile] resolves,
    having decoded only the piece in front of the second marker. *)
Lemma convertToFile_two_markers :
  let s := codes "data:image/png;base64,QUJDbase64,QUJD" in
  afterFirstMarker s = codes "QUJDbase64,QUJD"
  /\ Base64.atob (afterFirstMarker s) = None
  /\ convertToFile (Str s) = Fulfilled (inputPng [x41; x42; x43])
  /\ convertToFile (Str s) <> pngFile (Base64.atob (afterFirstMarker s)).
Proof.
  cbv zeta. repeat split; try (vm_compute; reflexivity).
  vm_compute. discriminate.
Qed.


Section SameConversion.

Context {W : Type} (lib : Lib W).

(** The wrappers see their argument only through [convertToFile]. *)
Lemma run_removeBackground_ext (x y : ImageData) (w : W) :
  convertToFile x = convertToFile y ->
  run lib (removeBackground x) w = run lib (removeBackground y) w.
Proof. intros E. now rewrite !run_removeBackground, E. Qed.

Lemma run_removeBackgroundAsBlob_ext (x y : ImageData) (w : W) :
  convertToFile x = convertToFile y ->
  run lib (removeBackgroundAsBlob x) w = run lib (removeBackgroundAsBlob y) w.
Proof. intros E. now rewrite !run_removeBackgroundAsBlob, E. Qed.

(** On one and the same argument the string result is the data URL of
    the binary result, and the library is left in the same state. *)
Lemma removeBackground_asDataURL (x : ImageData) (w : W) :
  outcome (run lib (removeBackground x) w)
    = asDataURL (outcome (run lib (removeBackgroundAsBlob x) w))
  /\ finalState (run lib (removeBackground x) w)
       = finalState (run lib (removeBackgroundAsBlob x) w).
Proof.
  rewrite run_removeBackground, run_removeBackgroundAsBlob.
  destruct (lib_initModel lib None w) as [[b|e] w1]; [|now split].
  destruct (convertToFile x) as [f|e]; [|now split].
  destruct (lib_processImage lib f w1) as [[pf|e] w2]; now split.
Qed.

(** Two arguments converted to files of the same contents and name. *)
Lemma removeBackground_asDataURL_files (x y : ImageData) (f g : File) (w : W) :
  readsContents lib ->
  convertToFile x = Fulfilled f -> convertToFile y = Fulfilled g ->
  fileBytes f = fileBytes g -> fileName f = fileName g ->
  outcome (run lib (removeBackground x) w)
    = asDataURL (outcome (run lib (removeBackgroundAsBlob y) w)).
Proof.
  intros Hlib Hx Hy Hb Hn.
  rewrite run_removeBackground, run_removeBackgroundAsBlob, Hx, Hy.
  destruct (lib_initModel lib None w) as [[b|e] w1]; [|reflexivity].
  rewrite (Hlib f g w1 Hb Hn).
  destruct (lib_processImage lib g w1) as [[pf|e] w2]; reflexivity.
Qed.

End SameConversion.

Lemma lifecycle_lib_readsContents (rt : Lifecycle.Runtime) :
  readsContents (Lifecycle.lib rt).
Proof.
  intros f g w Hb Hn. cbn. unfold Lifecycle.processOne.
  now rewrite Hb, Hn.
Qed.

(** C3.  On the same argument [removeBackground] resolves the data URL
    of what [removeBackgroundAsBlob] resolves, rejects as it rejects,
    and leaves the library in the same state.  The same holds between
    an image passed to [removeBackground] as base64 text, bare or
    behind a data-URL prefix, and the image passed to
    [removeBackgroundAsBlob] as a [Blob]: the two files handed to
    [processImage] have the same bytes and the same name, and the same
    type too when the [Blob] declares ['image/png'] or nothing; for
    other declared types [processImage] is taken to go by the contents
    of the file. *)
Theorem removeBackground_encodes_blob_result
  (W : Type) (lib : Lib W) (w : W) (x : ImageData)
  (bs : list byte) (pre t : JsString)
  (Hsame : orElse t (codes "image/png") = codes "image/png"
           \/ readsContents lib)
  (Hpre : hasComma pre = false) :
  (outcome (run lib (removeBackground x) w)
     = asDataURL (outcome (run lib (removeBackgroundAsBlob x) w))
   /\ finalState (run lib (removeBackground x) w)
        = finalState (run lib (removeBackgroundAsBlob x) w))
  /\ outcome (run lib (removeBackground (Str (Base64.encode bs))) w)
       = asDataURL
           (outcome (run lib (removeBackgroundAsBlob (Bin (mkBlob bs t))) w))
  /\ outcome
       (run lib (removeBackground (Str (pre ++ marker ++ Base64.encode bs))) w)
       = asDataURL
           (outcome (run lib (removeBackgroundAsBlob (Bin (mkBlob bs t))) w)).
Proof.
  split; [apply removeBackground_asDataURL|].
  destruct Hsame as [Hpng|Hlib].
  - assert (convertToFile (Bin (mkBlob bs t)) = Fulfilled (inputPng bs))
      as Hbin by (cbn [convertToFile blobBytes blobType]; now rewrite Hpng).
    split.
    + rewrite (run_removeBackground_ext lib (Str (Base64.encode bs))
                 (Bin (mkBlob bs t)) w)
        by now rewrite Hbin, convertToFile_encode.
      apply removeBackground_asDataURL.
    + rewrite (run_removeBackground_ext lib
                 (Str (pre ++ marker ++ Base64.encode bs))
                 (Bin (mkBlob bs t)) w)
        by now rewrite Hbin, (convertToFile_prefixed _ _ Hpre).
      apply removeBackground_asDataURL.
  - split.
    + eapply removeBackground_asDataURL_files;
        [exact Hlib | apply convertToFile_encode | reflexivity
        | reflexivity | reflexivity].
    + eapply removeBackground_asDataURL_files;
        [exact Hlib | apply (convertToFile_prefixed _ _ Hpre) | reflexivity
        | reflexivity | reflexivity].
Qed.

Lemma removeBackground_encodes_blob_result_witness :
  let lib := Lifecycle.lib Samples.mirror in
  let w := Samples.freshWorld [] in
  hasComma (codes "data:image/jpeg;") = false
  /\ outcome
       (run lib (removeBackground (Str (codes "data:image/jpeg;base64,QUJD"))) w)
     = asDataURL
         (outcome
            (run lib
               (removeBackgroundAsBlob
                  (Bin (mkBlob Samples.abc (codes "image/jpeg")))) w))
  /\ outcome
       (run lib (removeBackground (Str (codes "data:image/jpeg;base64,QUJD"))) w)
     = Fulfilled (codes "data:image/png;base64,Q0JB").
Proof.
  cbv zeta. split; [reflexivity|]. split.
  - exact (proj2 (proj2
      (@removeBackground_encodes_blob_result
         Lifecycle.World
         (Lifecycle.lib Samples.mirror) (Samples.freshWorld [])
         (Str []) Samples.abc (codes "data:image/jpeg;") (codes "image/jpeg")
         (or_intror (lifecycle_lib_readsContents Samples.mirror))
         eq_refl))).
  - vm_compute. reflexivity.
Defined.











(* ================================================================== *)
(** ** Readiness, decoding and inference: the order of the steps *)

Section Order.

Context {W : Type} (lib : Lib W).

(** A payload that [atob] refuses: what either wrapper does. *)
Lemma run_removeBackground_malformed (s : JsString) (w : W) :
  Base64.atob (base64Data s) = None ->
  run lib (removeBackground (Str s)) w =
    let (r, w1) := lib_initModel lib None w in
    match r with
    | Fulfilled _ =>
        (Rejected invalidCharacterError, w1,
         [CalledInitModel None r;
          Logged (codes "Error in removeBackground:") invalidCharacterError])
    | Rejected e =>
        (Rejected (rethrown e), w1,
         [CalledInitModel None r;
          Logged (codes "Error in removeBackground:") e])
    end.
Proof.
  intros Hbad. rewrite run_removeBackground.
  cbn [convertToFile]. rewrite Hbad.
  now destruct (lib_initModel lib None w) as [[b|e] w1].
Qed.

Lemma run_removeBackgroundAsBlob_malformed (s : JsString) (w : W) :
  Base64.atob (base64Data s) = None ->
  run lib (removeBackgroundAsBlob (Str s)) w =
    let (r, w1) := lib_initModel lib None w in
    match r with
    | Fulfilled _ =>
        (Rejected invalidCharacterError, w1,
         [CalledInitModel None r;
          Logged (codes "Error in removeBackgroundAsBlob:")
                 invalidCharacterError])
    | Rejected e =>
        (Rejected (rethrown e), w1,
         [CalledInitModel None r;
          Logged (codes "Error in removeBackgroundAsBlob:") e])
    end.
Proof.
  intros Hbad. rewrite run_removeBackgroundAsBlob.
  cbn [convertToFile]. rewrite Hbad.
  now destruct (lib_initModel lib None w) as [[b|e] w1].
Qed.

End Order.

(** C4, as amended.  A string payload whose base64 text [atob] refuses
    makes [convertToFile] reject with the decode error, and
    [processImage] is not called for it.  [initModel()] has been
    awaited before: the library is left in the state that call left,
    and the request is rejected with the decode error when
    [initModel()] resolved, with the error of [initModel()] when it
    rejected. *)
Theorem malformed_payload_rejected
  (W : Type) (lib : Lib W) (w : W) (s : JsString)
  (Hbad : Base64.atob (base64Data s) = None) :
  let rejection :=
    match fst (lib_initModel lib None w) with
    | Fulfilled _ => invalidCharacterError
    | Rejected e => rethrown e
    end in
  let string := run lib (removeBackground (Str s)) w in
  let blob := run lib (removeBackgroundAsBlob (Str s)) w in
  convertToFile (Str s) = Rejected invalidCharacterError
  /\ (outcome string = Rejected rejection
      /\ finalState string = snd (lib_initModel lib None w)
      /\ existsb isProcessCall (trace string) = false)
  /\ (outcome blob = Rejected rejection
      /\ finalState blob = snd (lib_initModel lib None w)
      /\ existsb isProcessCall (trace blob) = false).
Proof.
  cbv zeta. split; [cbn [convertToFile]; now rewrite Hbad|].
  rewrite (run_removeBackground_malformed lib s w Hbad).
  rewrite (run_removeBackgroundAsBlob_malformed lib s w Hbad).
  destruct (lib_initModel lib None w) as [[b|e] w1]; cbn; repeat split.
Qed.

Lemma malformed_payload_rejected_witness :
  let lib := Lifecycle.lib Samples.mirror in
  let w := Samples.freshWorld [] in
  let string := run lib (removeBackground (Str (codes "%%%"))) w in
  Base64.atob (base64Data (codes "%%%")) = None
  /\ outcome string = Rejected invalidCharacterError
  /\ existsb isProcessCall (trace string) = false.
Proof.
  cbv zeta. split; [reflexivity|].
  pose proof
    (@malformed_payload_rejected Lifecycle.World
       (Lifecycle.lib Samples.mirror) (Samples.freshWorld [])
       (codes "%%%") eq_refl) as H.
  cbv zeta in H. destruct H as (_ & (H1 & _ & H3) & _).
  split; [exact H1 | exact H3].
Defined.

(** C4, as stated, fails: the malformed payload ["%%%"] sent to a page
    whose model is not yet initialized leaves the Lifecycle Manager in
    [Ready], not in [Uninitialized] where it was; and when the load of
    the model fails, the request is rejected with the cause of that
    failure, not with the decode error. *)
Lemma malformed_payload_initializes_first :
  let lib := Lifecycle.lib Samples.mirror in
  let bad := Str (codes "%%%") in
  let w := Samples.freshWorld [] in
  let w' :=
    Samples.freshWorld [Lifecycle.LoadFailed (codes "no such model")] in
  convertToFile bad = Rejected invalidCharacterError
  /\ Lifecycle.lifecycle w = Lifecycle.Uninitialized
  /\ Lifecycle.lifecycle (finalState (run lib (removeBackground bad) w))
       = Lifecycle.Ready RMBG_1_4 Lifecycle.CpuFallback
  /\ finalState (run lib (removeBackground bad) w) <> w
  /\ outcome (run lib (removeBackground bad) w')
       = Rejected (ErrorObj (codes "no such model"))
  /\ outcome (run lib (removeBackground bad) w')
       <> Rejected invalidCharacterError.
Proof.
  cbv zeta. repeat split; try (vm_compute; reflexivity);
    vm_compute; discriminate.
Qed.

(** C5, as amended.  Either wrapper awaits [initModel()] before anything
    else, and [processImage] is called only when that call has resolved
    and the argument has been converted.  When [initModel()] rejects
    with [e],
    the request is rejected with the message of [e] (a fixed message
    if [e] is no [Error]), [processImage] is not called, and the
    library is left in the state [initModel()] left it in: a later
    request runs from there as any request does. *)
Theorem readiness_before_inference
  (W : Type) (lib : Lib W) (w w1 : W) (x y : ImageData) (e : Thrown)
  (Hfail : lib_initModel lib None w = (Rejected e, w1)) :
  (forall (v : W) (z : ImageData),
      hd_error (trace (run lib (removeBackground z) v))
        = Some (CalledInitModel None (fst (lib_initModel lib None v)))
      /\ hd_error (trace (run lib (removeBackgroundAsBlob z) v))
           = Some (CalledInitModel None (fst (lib_initModel lib None v)))
      /\ existsb isProcessCall (trace (run lib (removeBackground z) v))
           = match fst (lib_initModel lib None v), convertToFile z with
             | Fulfilled _, Fulfilled _ => true
             | _, _ => false
             end
      /\ existsb isProcessCall (trace (run lib (removeBackgroundAsBlob z) v))
           = match fst (lib_initModel lib None v), convertToFile z with
             | Fulfilled _, Fulfilled _ => true
             | _, _ => false
             end)
  /\ run lib (removeBackground x) w
       = (Rejected
            (ErrorObj (messageOr e (codes "Failed to remove background"))),
          w1,
          [CalledInitModel None (Rejected e);
           Logged (codes "Error in removeBackground:") e])
  /\ run lib (removeBackgroundAsBlob x) w
       = (Rejected
            (ErrorObj (messageOr e (codes "Failed to remove background"))),
          w1,
          [CalledInitModel None (Rejected e);
           Logged (codes "Error in removeBackgroundAsBlob:") e])
  /\ run lib (removeBackground y) (finalState (run lib (removeBackground x) w))
       = run lib (removeBackground y) w1
  /\ run lib (removeBackgroundAsBlob y)
         (finalState (run lib (removeBackgroundAsBlob x) w))
       = run lib (removeBackgroundAsBlob y) w1.
Proof.
  split.
  - intros v z. rewrite run_removeBackground, run_removeBackgroundAsBlob.
    destruct (lib_initModel lib None v) as [[b|e'] v1]; [|now repeat split].
    destruct (convertToFile z) as [f|e']; [|now repeat split].
    destruct (lib_processImage lib f v1) as [[pf|e'] v2]; now repeat split.
  - rewrite !run_removeBackground, !run_removeBackgroundAsBlob, Hfail.
    repeat split.
Qed.

Lemma readiness_before_inference_witness :
  let lib := Lifecycle.lib Samples.mirror in
  let w :=
    Samples.freshWorld [Lifecycle.LoadFailed (codes "no such model")] in
  let first := run lib (removeBackground (Str (codes "QUJD"))) w in
  let second :=
    run lib (removeBackground (Str (codes "QUJD"))) (finalState first) in
  outcome first = Rejected (ErrorObj (codes "no such model"))
  /\ existsb isProcessCall (trace first) = false
  /\ outcome second = Fulfilled (codes "data:image/png;base64,Q0JB").
Proof.
  cbv zeta.
  pose proof
    (@readiness_before_inference Lifecycle.World
       (Lifecycle.lib Samples.mirror)
       (Samples.freshWorld [Lifecycle.LoadFailed (codes "no such model")])
       (snd (Lifecycle.initialize None
               (Samples.freshWorld
                  [Lifecycle.LoadFailed (codes "no such model")])))
       (Str (codes "QUJD")) (Str (codes "QUJD"))
       (ErrorObj (codes "no such model")) eq_refl) as H.
  destruct H as (_ & H1 & _ & H2 & _).
  rewrite H2, H1. repeat split.
Defined.

(** C5, as stated, fails: when [initModel()] resolves [false], which
    [App.tsx] takes for a failed initialization, the wrappers go on all
    the same: [processImage] is called and the request resolves. *)
Lemma resolved_false_reaches_inference :
  let lib := Samples.stub false (codes "image/png") in
  let string := run lib (removeBackground (Str (codes "QUJD"))) tt in
  let blob := run lib (removeBackgroundAsBlob (Str (codes "QUJD"))) tt in
  fst (lib_initModel lib None tt) = Fulfilled false
  /\ existsb isProcessCall (trace string) = true
  /\ outcome string = Fulfilled (codes "data:image/png;base64,QUJD")
  /\ existsb isProcessCall (trace blob) = true
  /\ outcome blob = Fulfilled (inputPng Samples.abc).
Proof. cbv zeta. repeat split; vm_compute; reflexivity. Qed.

(* ================================================================== *)
(** ** Switching models *)

Lemma saysFallingBack_fallbackMessage (fallback : ModelId) (c : JsString) :
  App.saysFallingBack (ErrorObj (Lifecycle.fallbackMessage fallback c)) = true.
Proof. reflexivity. Qed.

Lemma modelEqb_neq (a b : ModelId) : a <> b -> Lifecycle.modelEqb a b = false.
Proof. destruct a, b; intros H; try reflexivity; now contradiction H. Qed.

(** The course of [handleModelChange]. *)
Lemma run_handleModelChange (W : Type) (lib : Lib W) (m : ModelId)
  (u : App.Ui) (w : W) :
  run lib (App.handleModelChange m u) w =
    let (r, w1) := lib_initModel lib (Some m) w in
    (Fulfilled
       match r with
       | Fulfilled true => App.mkUi m None false
       | Fulfilled false =>
           App.mkUi (App.currentModel u)
                    (Some (codes "Failed to initialize new model")) false
       | Rejected e =>
           if App.saysFallingBack e then App.mkUi RMBG_1_4 None false
           else App.mkUi (App.currentModel u)
                         (Some (messageOr e (codes "Failed to switch models")))
                         false
       end,
     w1, [CalledInitModel (Some m) r]).
Proof.
  unfold App.handleModelChange. cbn [initModel tryCatch bind run].
  destruct (lib_initModel lib (Some m) w) as [[[|]|e] w1];
    cbn [await bind tryCatch negb run]; try reflexivity.
  destruct (App.saysFallingBack e); reflexivity.
Qed.

(** C6.  On the Lifecycle Manager of the specification: a switch whose
    load fails while the load of the fallback succeeds ends in [Ready]
    on the fallback model, passes through [Switching], and rejects
    with an error whose message says "Falling back"; the fallback is
    the model that was ready, and the platform default when the switch
    started from [Failed].  The wrapper [initializeModel] of the
    service hands that error on with its message, and
    [handleModelChange] recognises it: it shows no error and resets its
    selection. *)
Theorem switch_failure_falls_back
  (rt : Lifecycle.Runtime) (w wf : Lifecycle.World)
  (prev target m : ModelId) (b b' : Lifecycle.Backend)
  (c cause : JsString) (rest : list Lifecycle.LoadOutcome) (u : App.Ui)
  (Hready : Lifecycle.lifecycle w = Lifecycle.Ready prev b)
  (Hfailed : Lifecycle.lifecycle wf = Lifecycle.Failed m cause)
  (Hscript : Lifecycle.loadScript w
             = Lifecycle.LoadFailed c :: Lifecycle.Loaded b' :: rest)
  (Hscriptf : Lifecycle.loadScript wf
              = Lifecycle.LoadFailed c :: Lifecycle.Loaded b' :: rest)
  (Hother : prev <> target)
  (Hplatform :
     Lifecycle.constrainedPlatform (Lifecycle.capabilities w) = false) :
  let marked := ErrorObj (Lifecycle.fallbackMessage prev c) in
  let markedDefault :=
    ErrorObj (Lifecycle.fallbackMessage Lifecycle.platformDefault c) in
  (fst (Lifecycle.switchModel target w) = Rejected marked
   /\ Lifecycle.lifecycle (snd (Lifecycle.switchModel target w))
        = Lifecycle.Ready prev b'
   /\ Lifecycle.visited (snd (Lifecycle.switchModel target w))
        = Lifecycle.Switching prev target
            :: Lifecycle.Ready prev b :: Lifecycle.visited w)
  /\ (fst (Lifecycle.switchModel target wf) = Rejected markedDefault
      /\ Lifecycle.lifecycle (snd (Lifecycle.switchModel target wf))
           = Lifecycle.Ready Lifecycle.platformDefault b'
      /\ Lifecycle.visited (snd (Lifecycle.switchModel target wf))
           = Lifecycle.Switching m target
               :: Lifecycle.Failed m cause :: Lifecycle.visited wf)
  /\ App.saysFallingBack marked = true
  /\ App.saysFallingBack markedDefault = true
  /\ outcome (run (Lifecycle.lib rt) (initializeModel (Some target)) w)
       = Rejected marked
  /\ Lifecycle.lifecycle
       (finalState (run (Lifecycle.lib rt) (initializeModel (Some target)) w))
       = Lifecycle.Ready prev b'
  /\ outcome (run (Lifecycle.lib rt) (App.handleModelChange target u) w)
       = Fulfilled (App.mkUi RMBG_1_4 None false).
Proof.
  cbv zeta.
  assert (Lifecycle.switchModel target w
          = (Rejected (ErrorObj (Lifecycle.fallbackMessage prev c)),
             Lifecycle.mkWorld (Lifecycle.capabilities w)
               (Lifecycle.Ready prev b')
               (Lifecycle.Switching prev target
                  :: Lifecycle.Ready prev b :: Lifecycle.visited w)
               rest)) as Hsw.
  { unfold Lifecycle.switchModel. rewrite Hready.
    unfold Lifecycle.finishSwitching, Lifecycle.load, Lifecycle.enter.
    cbn. rewrite Hscript, Hready. reflexivity. }
  assert (Lifecycle.switchModel target wf
          = (Rejected
               (ErrorObj
                  (Lifecycle.fallbackMessage Lifecycle.platformDefault c)),
             Lifecycle.mkWorld (Lifecycle.capabilities wf)
               (Lifecycle.Ready Lifecycle.platformDefault b')
               (Lifecycle.Switching m target
                  :: Lifecycle.Failed m cause :: Lifecycle.visited wf)
               rest)) as Hswf.
  { unfold Lifecycle.switchModel. rewrite Hfailed.
    unfold Lifecycle.finishSwitching, Lifecycle.load, Lifecycle.enter.
    cbn. rewrite Hscriptf, Hfailed. reflexivity. }
  assert (Lifecycle.initialize (Some target) w
          = Lifecycle.switchModel target w) as Hinit.
  { unfold Lifecycle.initialize, Lifecycle.selectModel.
    now rewrite Hready, Hplatform, (modelEqb_neq Hother). }
  rewrite Hsw, Hswf.
  split; [now repeat split|]. split; [now repeat split|].
  split; [reflexivity|]. split; [reflexivity|].
  rewrite run_initializeModel, run_handleModelChange.
  cbn [Lifecycle.lib lib_initModel]. rewrite Hinit, Hsw.
  repeat split.
Qed.

Lemma switch_failure_falls_back_witness :
  let w :=
    Samples.readyWorld RMBG_1_4
      [Lifecycle.LoadFailed (codes "no WebGPU adapter");
       Lifecycle.Loaded Lifecycle.CpuFallback] in
  let r :=
    run (Lifecycle.lib Samples.mirror) (initializeModel (Some Modnet)) w in
  outcome r
    = Rejected
        (ErrorObj
           (codes "Falling back to briaai/RMBG-1.4: no WebGPU adapter"))
  /\ Lifecycle.lifecycle (finalState r)
     = Lifecycle.Ready RMBG_1_4 Lifecycle.CpuFallback.
Proof.
  cbv zeta.
  pose proof
    (@switch_failure_falls_back Samples.mirror
       (Samples.readyWorld RMBG_1_4
          [Lifecycle.LoadFailed (codes "no WebGPU adapter");
           Lifecycle.Loaded Lifecycle.CpuFallback])
       (Lifecycle.mkWorld (Lifecycle.mkCapabilities true false)
          (Lifecycle.Failed Modnet (codes "no WebGPU adapter")) []
          [Lifecycle.LoadFailed (codes "no WebGPU adapter");
           Lifecycle.Loaded Lifecycle.CpuFallback])
       RMBG_1_4 Modnet Modnet Lifecycle.CpuFallback Lifecycle.CpuFallback
       (codes "no WebGPU adapter") (codes "no WebGPU adapter") []
       (App.mkUi RMBG_1_4 None false)
       eq_refl eq_refl eq_refl eq_refl
       ltac:(discriminate) eq_refl) as H.
  cbv zeta in H. destruct H as (_ & _ & _ & _ & H1 & H2 & _).
  split; [exact H1 | exact H2].
Defined.

(* ================================================================== *)
(** ** The queue: one runtime call at a time *)

Lemma inFlightFrom_app (n : nat) (l l' : list Queue.Invocation) :
  Queue.inFlightFrom n (l ++ l')
    = Queue.inFlightFrom (Queue.inFlightFrom n l) l'.
Proof.
  revert n; induction l as [|[i|i] l IH]; intros n; cbn; auto.
Qed.

Lemma openAfter_app (c : option nat) (l l' : list Queue.Invocation) :
  Queue.openAfter c (l ++ l') = Queue.openAfter (Queue.openAfter c l) l'.
Proof.
  revert c; induction l as [|[i|i] l IH]; intros c; cbn; auto.
Qed.

Lemma oneAtATime_app (c : option nat) (l l' : list Queue.Invocation) :
  Queue.oneAtATime c (l ++ l')
    = Queue.oneAtATime c l && Queue.oneAtATime (Queue.openAfter c l) l'.
Proof.
  revert c; induction l as [|[i|i] l IH]; intros c; cbn.
  - reflexivity.
  - destruct c; [reflexivity|apply IH].
  - destruct c as [j|]; [|reflexivity].
    rewrite IH. now rewrite andb_assoc.
Qed.

Lemma inFlight_prefix_snoc (log : list Queue.Invocation)
  (e : Queue.Invocation) :
  (forall k, Queue.inFlight (firstn k log) <= 1) ->
  Queue.inFlight (log ++ [e]) <= 1 ->
  forall k, Queue.inFlight (firstn k (log ++ [e])) <= 1.
Proof.
  intros Hlog Hall k.
  destruct (Nat.le_gt_cases k (length log)) as [Hk|Hk].
  - rewrite firstn_app.
    replace (k - length log) with 0 by lia.
    cbn [firstn]. rewrite app_nil_r. apply Hlog.
  - rewrite firstn_all2 by (rewrite length_app; cbn; lia). exact Hall.
Qed.

Lemma invariant_start (w : Lifecycle.World) :
  Queue.QueueInvariant (Queue.start w).
Proof.
  constructor; cbn; try reflexivity.
  intros k. destruct k; cbn; lia.
Qed.

Lemma invariant_step (q : Queue.QueueState) (a : Queue.Action) :
  Queue.QueueInvariant q -> Queue.QueueInvariant (Queue.step q a).
Proof.
  intros [Hseq Hopen Hcount Hprefix].
  destruct a as [image| |r]; cbn [Queue.step].
  - constructor; assumption.
  - unfold Queue.workerTurn.
    destruct (Queue.executing q) as [req|] eqn:Ex;
      [constructor; rewrite ?Ex; assumption|].
    destruct (Queue.pending q) as [|req rest] eqn:Ep;
      [constructor; rewrite ?Ex; assumption|].
    destruct (Lifecycle.ensureReady (Queue.manager q)) as [[[]|e] w'].
    + assert (Queue.inFlight (Queue.invocations q
                                ++ [Queue.Started (Queue.seqNo req)]) = 1)
        as Hone.
      { unfold Queue.inFlight in *. rewrite inFlightFrom_app, Hcount.
        reflexivity. }
      constructor; cbn [Queue.invocations Queue.executing].
      * rewrite oneAtATime_app, Hseq, Hopen. reflexivity.
      * rewrite openAfter_app, Hopen. reflexivity.
      * exact Hone.
      * apply inFlight_prefix_snoc; [assumption|]. now rewrite Hone.
    + constructor; cbn [Queue.invocations Queue.executing]; assumption.
  - unfold Queue.runtimeSettles.
    destruct (Queue.executing q) as [req|] eqn:Ex;
      [|constructor; rewrite ?Ex; assumption].
    assert (Queue.inFlight (Queue.invocations q
                              ++ [Queue.Finished (Queue.seqNo req)]) = 0)
      as Hzero.
    { unfold Queue.inFlight in *. rewrite inFlightFrom_app, Hcount.
      reflexivity. }
    constructor; cbn [Queue.invocations Queue.executing].
    + rewrite oneAtATime_app, Hseq, Hopen. cbn.
      now rewrite Nat.eqb_refl.
    + rewrite openAfter_app, Hopen. reflexivity.
    + exact Hzero.
    + apply inFlight_prefix_snoc; [assumption|]. rewrite Hzero. lia.
Qed.

Lemma invariant_fold (actions : list Queue.Action) (q : Queue.QueueState) :
  Queue.QueueInvariant q ->
  Queue.QueueInvariant (fold_left Queue.step actions q).
Proof.
  revert q; induction actions as [|a actions IH]; intros q Hq; cbn.
  - exact Hq.
  - apply IH, invariant_step, Hq.
Qed.

(** C7.  On the queue of the specification: whatever the callers, the
    worker and the runtime do, in whatever order, the calls into the
    runtime come one at a time: each one ends before the next begins,
    and at no point of the log is more than one call in flight. *)
Theorem at_most_one_in_flight
  (w : Lifecycle.World) (actions : list Queue.Action) (k : nat) :
  Queue.oneAtATime None (Queue.invocations (Queue.runActions w actions)) = true
  /\ Queue.inFlight (firstn k (Queue.invocations (Queue.runActions w actions)))
     <= 1.
Proof.
  destruct (invariant_fold actions (invariant_start w)) as [Hseq _ _ Hprefix].
  split; [exact Hseq | apply Hprefix].
Qed.

(** A burst of five submissions before the worker gets its first turn:
    the five requests reach the runtime in the order of submission, one
    after the other. *)
Example burst_of_five :
  let image := inputPng Samples.abc in
  let burst := repeat (Queue.Submit image) 5 in
  let turn := [Queue.WorkerTurn; Queue.WorkerTurn;
               Queue.RuntimeSettles (Fulfilled Samples.abc)] in
  let q :=
    Queue.runActions (Samples.freshWorld [])
      (burst ++ turn ++ turn ++ turn ++ turn ++ turn) in
  Queue.invocations q
    = [Queue.Started 0; Queue.Finished 0; Queue.Started 1; Queue.Finished 1;
       Queue.Started 2; Queue.Finished 2; Queue.Started 3; Queue.Finished 3;
       Queue.Started 4; Queue.Finished 4]
  /\ map fst (Queue.delivered q) = [0; 1; 2; 3; 4]
  /\ Queue.pending q = [].
Proof. cbv zeta. repeat split. Qed.

(* ================================================================== *)
(** ** The status record *)









(* ================================================================== *)
(** ** The connection and the methods it exposes *)

(** C1, as amended.  The embedded page connects only when it runs in an
    iframe, and then with the fixed allow-list [['*']], which is not
    supplied by any caller: the origin test of the messenger passes for
    every remote origin, and the handshake hands over
    [penpalMethods]. *)
Theorem embedded_page_allows_any_origin
  (c : App.Connection) (windowOrigin origin : JsString)
  (Hsetup : App.setupPenpal true windowOrigin = Some c) :
  App.allowedOrigins (App.messenger c) = [App.OriginString (codes "*")]
  /\ App.isAllowedOrigin (App.messenger c) origin = true
  /\ App.handshake c origin = Some penpalMethods
  /\ App.setupPenpal false windowOrigin = None.
Proof.
  injection Hsetup as <-.
  assert (App.isAllowedOrigin
            (App.newWindowMessenger windowOrigin
               [App.OriginString (codes "*")]) origin = true) as Hall.
  { unfold App.isAllowedOrigin. cbn [App.newWindowMessenger
      App.allowedOrigins existsb].
    replace (Js.eqb (codes "*") (codes "*")) with true by reflexivity.
    now rewrite orb_true_r. }
  split; [reflexivity|]. split; [exact Hall|]. split; [|reflexivity].
  unfold App.handshake. cbn [App.connect App.messenger App.methods].
  now rewrite Hall.
Qed.

Lemma embedded_page_allows_any_origin_witness :
  App.handshake
    (App.connect
       (App.newWindowMessenger (codes "https://bg.your-domain.com")
          [App.OriginString (codes "*")])
       penpalMethods)
    (codes "https://elsewhere.example")
  = Some penpalMethods.
Proof.
  exact (proj1 (proj2 (proj2
    (@embedded_page_allows_any_origin
       (App.connect
          (App.newWindowMessenger (codes "https://bg.your-domain.com")
             [App.OriginString (codes "*")])
          penpalMethods)
       (codes "https://bg.your-domain.com")
       (codes "https://elsewhere.example") eq_refl)))).
Defined.

(** C1, as stated, fails: an origin that is no entry of the allow-list
    of the embedded page is handed the method set all the same. *)
Lemma unlisted_origin_receives_methods :
  exists c,
    App.setupPenpal true (codes "https://bg.your-domain.com") = Some c
    /\ ~ In (App.OriginString (codes "https://elsewhere.example"))
            (App.allowedOrigins (App.messenger c))
    /\ App.handshake c (codes "https://elsewhere.example")
       = Some penpalMethods.
Proof.
  eexists. split; [reflexivity|]. split.
  - cbn. intros [H|[]]. discriminate H.
  - reflexivity.
Qed.

Lemma property_penpalMethods (name : string) :
  property penpalMethods name
  = if String.eqb "removeBackground" name
    then Some (existT Implementation ImageToString removeBackground)
    else if String.eqb "removeBackgroundAsBlob" name
    then Some (existT Implementation ImageToBlob removeBackgroundAsBlob)
    else if String.eqb "initializeModel" name
    then Some (existT Implementation ModelIdToBoolean initializeModel)
    else if String.eqb "getModelInfo" name
    then Some (existT Implementation NoneToModelInfo getModelInfo)
    else None.
Proof. reflexivity. Qed.

Lemma existsb_eqb_In (name : string) (l : list string) :
  existsb (String.eqb name) l = true <-> In name l.
Proof.
  rewrite existsb_exists. split.
  - intros (x & Hx & E). apply String.eqb_eq in E. now subst.
  - intros H. exists name. split; [exact H|apply String.eqb_refl].
Qed.

(** C2, as amended.  The object handed to Penpal has exactly four
    properties of its own, [removeBackground], [removeBackgroundAsBlob],
    [initializeModel] and [getModelInfo], each the function of that
    name, the first resolving a string and the second a [Blob].  A
    property access by name finds one of these four, or one of the
    functions the object inherits from [Object.prototype], none of
    which it shadows, or nothing. *)
Theorem penpalMethods_exactly_four (name : string) :
  map fst penpalMethods
    = ["removeBackground"; "removeBackgroundAsBlob"; "initializeModel";
       "getModelInfo"]%string
  /\ NoDup (map fst penpalMethods)
  /\ getFunction penpalMethods "removeBackground"
       = Some (OwnMethod (existT Implementation ImageToString removeBackground))
  /\ getFunction penpalMethods "removeBackgroundAsBlob"
       = Some (OwnMethod
                 (existT Implementation ImageToBlob removeBackgroundAsBlob))
  /\ getFunction penpalMethods "initializeModel"
       = Some (OwnMethod
                 (existT Implementation ModelIdToBoolean initializeModel))
  /\ getFunction penpalMethods "getModelInfo"
       = Some (OwnMethod (existT Implementation NoneToModelInfo getModelInfo))
  /\ (property penpalMethods name <> None
      <-> In name (map fst penpalMethods))
  /\ (In name objectPrototypeFunctions ->
      getFunction penpalMethods name = Some (Inherited name))
  /\ (getFunction penpalMethods name <> None
      <-> In name (map fst penpalMethods ++ objectPrototypeFunctions)).
Proof.
  assert (property penpalMethods name <> None
          <-> In name (map fst penpalMethods)) as Hown.
  { rewrite property_penpalMethods. cbn [map fst penpalMethods In].
    repeat match goal with
           | |- context [String.eqb ?a name] =>
               destruct (String.eqb_spec a name)
           end; subst; split; intros H; try congruence; try tauto.
  }
  assert (In name objectPrototypeFunctions ->
          property penpalMethods name = None) as Hfresh.
  { intros Hin. rewrite property_penpalMethods.
    repeat match goal with
           | |- context [String.eqb ?a name] =>
               destruct (String.eqb_spec a name)
           end; try reflexivity; subst; exfalso;
      cbn in Hin; intuition discriminate. }
  split; [reflexivity|]. split.
  { cbn. repeat constructor; cbn; intuition discriminate. }
  do 4 (split; [reflexivity|]).
  split; [exact Hown|]. split.
  - intros Hin. unfold getFunction. rewrite (Hfresh Hin).
    now rewrite (proj2 (existsb_eqb_In name objectPrototypeFunctions) Hin).
  - unfold getFunction. rewrite in_app_iff, <- Hown.
    destruct (property penpalMethods name) as [m|].
    + split; [intros _; left; discriminate|discriminate].
    + rewrite <- existsb_eqb_In.
      destruct (existsb (String.eqb name) objectPrototypeFunctions);
        split; try discriminate; try tauto.
      * intros [H|H]; [now contradiction H|discriminate].
Qed.

(** C2, as stated, fails: [toString] is none of the four methods, yet a
    property access on the object finds a function under that name,
    the one every object inherits. *)
Lemma penpalMethods_inherits_toString :
  ~ In "toString"%string (map fst penpalMethods)
  /\ getFunction penpalMethods "toString" = Some (Inherited "toString")
  /\ getFunction penpalMethods "toString" <> None.
Proof.
  split; [cbn; intuition discriminate|]. split; [reflexivity|discriminate].
Qed.

(* ================================================================== *)
(** ** More on the conversion of string payloads *)

Lemma list_ind4 (A : Type) (P : list A -> Prop) :
  P [] -> (forall a, P [a]) -> (forall a b, P [a; b]) ->
  (forall a b c, P [a; b; c]) ->
  (forall a b c d l, P l -> P (a :: b :: c :: d :: l)) ->
  forall l, P l.
Proof.
  intros H0 H1 H2 H3 H4.
  fix IH 1.
  intros [|a [|b [|c [|d l]]]];
    [exact H0 | apply H1 | apply H2 | apply H3 | apply H4, IH].
Qed.

Lemma b64val_sextet (c v : N) : Base64.b64val c = Some v -> isSextet v.
Proof.
  unfold Base64.b64val, isSextet.
  repeat match goal with
         | |- context [(?a <=? ?b)%N] => destruct (N.leb_spec a b)
         | |- context [(?a =? ?b)%N] => destruct (N.eqb_spec a b)
         | _ => progress cbn [andb]
         end; intros [= <-]; lia.
Qed.

Lemma valuesOf_sextets (s : JsString) (vs : list N) :
  Base64.valuesOf s = Some vs -> Forall isSextet vs.
Proof.
  revert vs; induction s as [|c s IH]; intros vs; cbn.
  - intros [= <-]. constructor.
  - destruct (Base64.b64val c) as [v|] eqn:Ev; [|discriminate].
    destruct (Base64.valuesOf s) as [vs'|]; [|discriminate].
    intros [= <-]. constructor; [exact (b64val_sextet _ Ev)|now apply IH].
Qed.

Lemma valuesOf_length (s : JsString) (vs : list N) :
  Base64.valuesOf s = Some vs -> length vs = length s.
Proof.
  revert vs; induction s as [|c s IH]; intros vs; cbn.
  - now intros [= <-].
  - destruct (Base64.b64val c) as [v|]; [|discriminate].
    destruct (Base64.valuesOf s) as [vs'|]; [|discriminate].
    intros [= <-]. cbn. now rewrite (IH vs' eq_refl).
Qed.

Lemma bytesOf_isByte (vs : list N) :
  Forall isSextet vs -> Forall isByte (Base64.bytesOf vs).
Proof.
  unfold isSextet, isByte.
  induction vs as [|a|a b|a b c|a b c d l IH] using list_ind4; intros H;
    cbn [Base64.bytesOf app]; repeat constructor;
    repeat match goal with
           | H : Forall _ (_ :: _) |- _ => inversion_clear H
           end; try lia.
  apply IH. assumption.
Qed.

(** What [atob] returns is a binary string: every code unit is a
    byte. *)
Lemma atob_isByte (s b : JsString) :
  Base64.atob s = Some b -> Forall isByte b.
Proof.
  unfold Base64.atob.
  set (d := if (length (filter _ s) mod 4 =? 0)%nat then _ else _).
  destruct (length d mod 4 =? 1)%nat; [discriminate|].
  destruct (Base64.valuesOf d) as [vs|] eqn:E; [|discriminate].
  intros [= <-]. apply bytesOf_isByte, (valuesOf_sextets _ E).
Qed.

Lemma to_N_toUint8 (c : N) : isByte c -> Byte.to_N (toUint8 c) = c.
Proof.
  unfold isByte, toUint8. intros H. rewrite N.mod_small by assumption.
  destruct (Byte.of_N c) as [b|] eqn:E.
  - now apply Byte.to_of_N.
  - apply Byte.of_N_None_iff in E. lia.
Qed.

Lemma binaryString_toUint8 (b : JsString) :
  Forall isByte b -> binaryString (map toUint8 b) = b.
Proof.
  unfold binaryString. induction 1 as [|c b Hc _ IH]; cbn; [reflexivity|].
  now rewrite (to_N_toUint8 Hc), IH.
Qed.

(** X1.  The loop that copies the decoded text into the [Uint8Array]
    loses nothing: when [convertToFile] resolves a file for a string
    payload, the bytes of the file, read as char codes, are exactly
    what [atob] returned, and the file is ['input-image.png'] of type
    ['image/png']. *)
Theorem convertToFile_keeps_decoded_bytes (s : JsString) (f : File)
  (Hfile : convertToFile (Str s) = Fulfilled f) :
  Base64.atob (base64Data s) = Some (binaryString (fileBytes f))
  /\ fileName f = codes "input-image.png"
  /\ fileType f = codes "image/png".
Proof.
  cbn [convertToFile] in Hfile.
  destruct (Base64.atob (base64Data s)) as [b|] eqn:E; [|discriminate].
  injection Hfile as <-. cbn [fileBytes fileName fileType blobBytes].
  rewrite (binaryString_toUint8 (atob_isByte _ E)). now repeat split.
Qed.

Lemma convertToFile_keeps_decoded_bytes_witness :
  Base64.atob (base64Data (codes "data:image/png;base64,/9j/"))
  = Some [255; 216; 255]%N.
Proof.
  exact (proj1
    (@convertToFile_keeps_decoded_bytes
       (codes "data:image/png;base64,/9j/") (inputPng [xff; xd8; xff])
       eq_refl)).
Defined.

Lemma filter_idempotent (A : Type) (f : A -> bool) (l : list A) :
  filter f (filter f l) = filter f l.
Proof.
  induction l as [|x l IH]; cbn; [reflexivity|].
  destruct (f x) eqn:E; cbn; [rewrite E|]; now rewrite ?IH.
Qed.

Lemma atob_filter (s : JsString) :
  Base64.atob (filter Observed.kept s) = Base64.atob s.
Proof.
  unfold Base64.atob.
  change (fun c => negb (Base64.isAsciiWhitespace c)) with Observed.kept.
  now rewrite filter_idempotent.
Qed.

Lemma hasComma_filter (s : JsString) :
  hasComma (filter Observed.kept s) = hasComma s.
Proof.
  unfold hasComma. induction s as [|c s IH]; [reflexivity|].
  cbn [filter existsb].
  destruct (Observed.kept c) eqn:E; cbn [existsb]; rewrite IH;
    [reflexivity|].
  destruct (N.eqb_spec 44 c) as [<-|]; [discriminate E|reflexivity].
Qed.

Lemma base64Data_no_comma (s : JsString) :
  hasComma s = false -> base64Data s = s.
Proof.
  intros H. rewrite base64Data_betweenMarkers. unfold betweenMarkers.
  now rewrite (indexOf_marker_no_comma _ H).
Qed.

(** X2.  Whitespace in a bare base64 payload does not matter: a string
    that is the base64 text of [bs] once its tabs, line feeds, form
    feeds, carriage returns and spaces are taken out is converted to
    the file of the bytes [bs]. *)
Theorem convertToFile_ignores_whitespace (s : JsString) (bs : list byte)
  (Htext : filter Observed.kept s = Base64.encode bs) :
  convertToFile (Str s) = Fulfilled (inputPng bs).
Proof.
  assert (hasComma s = false) as Hc
      by (rewrite <- hasComma_filter, Htext; apply encode_no_comma).
  cbn [convertToFile]. rewrite (base64Data_no_comma _ Hc).
  rewrite <- atob_filter, Htext, atob_encode.
  unfold inputPng. now rewrite toUint8_binaryString.
Qed.

Lemma convertToFile_ignores_whitespace_witness :
  convertToFile (Str [81; 85; 10; 74; 32; 68; 13; 10]%N)
  = Fulfilled (inputPng Samples.abc).
Proof.
  exact (@convertToFile_ignores_whitespace
           [81; 85; 10; 74; 32; 68; 13; 10]%N Samples.abc eq_refl).
Defined.

Lemma encodeUnpadded_alphabet (bs : list byte) :
  Forall (fun c => Observed.kept c = true /\ (c =? 61)%N = false
                   /\ (c =? 44)%N = false)
         (Observed.encodeUnpadded bs).
Proof.
  apply Forall_forall. intros c Hc.
  apply in_map_iff in Hc as (v & <- & _).
  destruct (b64char_alphabet v) as (H1 & H2 & H3).
  unfold Observed.kept. now rewrite H1.
Qed.

Lemma atob_encodeUnpadded (bs : list byte) :
  Base64.atob (Observed.encodeUnpadded bs) = Some (binaryString bs).
Proof.
  pose proof (encodeUnpadded_alphabet bs) as Halpha.
  unfold Base64.atob.
  change (fun c => negb (Base64.isAsciiWhitespace c)) with Observed.kept.
  rewrite filter_all
    by (eapply Forall_impl; [|exact Halpha]; now intros c [H _]).
  assert (Base64.stripPadding (Observed.encodeUnpadded bs)
          = Observed.encodeUnpadded bs) as Hstrip.
  { rewrite <- (app_nil_r (Observed.encodeUnpadded bs)) at 1.
    apply stripPadding_body; [|now left].
    eapply Forall_impl; [|exact Halpha]. now intros c (_ & H & _). }
  rewrite Hstrip.
  destruct (length (Observed.encodeUnpadded bs) mod 4 =? 0)%nat.
  all: unfold Observed.encodeUnpadded at 1; rewrite length_map.
  all: destruct (sextetsOf_length (map Byte.to_N bs)) as [_ Hlen].
  all: destruct (length (Base64.sextetsOf (map Byte.to_N bs)) mod 4 =? 1)%nat
         eqn:E1; [apply Nat.eqb_eq in E1; contradiction|].
  all: unfold Observed.encodeUnpadded.
  all: rewrite (valuesOf_b64char (sextetsOf_sextets (to_N_isByte bs))).
  all: cbn [option_map]; now rewrite (bytesOf_sextetsOf (to_N_isByte bs)).
Qed.

(** X3.  The padding is optional: the base64 text of any bytes with its
    trailing ['='] signs left out is converted to the file of those
    bytes, as the padded text is. *)
Theorem convertToFile_accepts_unpadded (bs : list byte) :
  convertToFile (Str (Observed.encodeUnpadded bs)) = Fulfilled (inputPng bs)
  /\ Base64.encode bs
     = Observed.encodeUnpadded bs ++ Base64.padding (length bs).
Proof.
  split; [|reflexivity].
  assert (hasComma (Observed.encodeUnpadded bs) = false) as Hc.
  { unfold hasComma. apply not_true_is_false. intros H.
    apply existsb_exists in H as (c & Hc & Hx).
    pose proof (encodeUnpadded_alphabet bs) as Halpha.
    rewrite Forall_forall in Halpha. destruct (Halpha c Hc) as (_ & _ & H3).
    rewrite N.eqb_sym in Hx. congruence. }
  cbn [convertToFile]. rewrite (base64Data_no_comma _ Hc).
  rewrite atob_encodeUnpadded. unfold inputPng.
  now rewrite toUint8_binaryString.
Qed.

Lemma stripPadding_keeps (l : JsString) (c : N) :
  In c l -> (c =? 61)%N = false -> In c (Base64.stripPadding l).
Proof.
  intros Hin Hc. unfold Base64.stripPadding.
  apply in_rev in Hin.
  destruct (rev l) as [|last r] eqn:E; [destruct Hin|].
  destruct (N.eqb_spec last 61) as [->|]; [|now rewrite in_rev, E].
  destruct Hin as [<-|Hin]; [discriminate Hc|].
  destruct r as [|last' r']; [destruct Hin|].
  destruct (N.eqb_spec last' 61) as [->|]; [|now apply in_rev in Hin].
  destruct Hin as [<-|Hin]; [discriminate Hc|]. now apply in_rev in Hin.
Qed.

Lemma valuesOf_invalid (l : JsString) (c : N) :
  In c l -> Base64.b64val c = None -> Base64.valuesOf l = None.
Proof.
  induction l as [|x l IH]; intros Hin Hc; [destruct Hin|]. cbn.
  destruct Hin as [->|Hin]; [now rewrite Hc|].
  rewrite (IH Hin Hc). now destruct (Base64.b64val x).
Qed.

Lemma atob_invalid (s : JsString) (c : N) :
  In c s -> Observed.kept c = true -> (c =? 61)%N = false ->
  Base64.b64val c = None -> Base64.atob s = None.
Proof.
  intros Hin Hk Hp Hv. unfold Base64.atob.
  change (fun c => negb (Base64.isAsciiWhitespace c)) with Observed.kept.
  assert (In c (filter Observed.kept s)) as Hd by now apply filter_In.
  set (d := if (length (filter Observed.kept s) mod 4 =? 0)%nat
            then Base64.stripPadding (filter Observed.kept s)
            else filter Observed.kept s).
  assert (In c d) as Hd'.
  { unfold d. destruct (_ =? 0)%nat; [now apply stripPadding_keeps|exact Hd]. }
  rewrite (valuesOf_invalid _ _ Hd' Hv). now destruct (_ =? 1)%nat.
Qed.

(** X4.  One wrong character is enough: when the text handed to [atob]
    holds a character that is neither whitespace, nor ['='], nor of the
    base64 alphabet, [convertToFile] rejects with the decode error,
    wherever the character stands. *)
Theorem convertToFile_rejects_foreign_character (s : JsString) (c : N)
  (Hin : In c (base64Data s))
  (Hkept : Base64.isAsciiWhitespace c = false)
  (Hpad : c <> 61%N)
  (Hforeign : Base64.b64val c = None) :
  convertToFile (Str s) = Rejected invalidCharacterError.
Proof.
  cbn [convertToFile].
  rewrite (atob_invalid (base64Data s) c Hin); try assumption.
  - reflexivity.
  - unfold Observed.kept. now rewrite Hkept.
  - now apply N.eqb_neq.
Qed.

Lemma convertToFile_rejects_foreign_character_witness :
  convertToFile (Str (codes "data:image/png;base64,QU-D"))
  = Rejected invalidCharacterError.
Proof.
  apply (@convertToFile_rejects_foreign_character
           (codes "data:image/png;base64,QU-D") 45%N).
  - cbn. tauto.
  - reflexivity.
  - discriminate.
  - reflexivity.
Defined.

Lemma filter_none (A : Type) (f : A -> bool) (l : list A) :
  Forall (fun x => f x = false) l -> filter f l = [].
Proof.
  induction 1 as [|x l Hx _ IH]; cbn; [reflexivity|]. now rewrite Hx.
Qed.

(** X5.  A blank payload is not refused: when the text handed to
    [atob] is empty or whitespace only (an empty string, or a data URL
    with nothing behind ['base64,']), [convertToFile] resolves a file
    of no bytes. *)
Theorem convertToFile_blank_payload (s : JsString)
  (Hblank : Forall (fun c => Base64.isAsciiWhitespace c = true)
                   (base64Data s)) :
  convertToFile (Str s) = Fulfilled (inputPng []).
Proof.
  cbn [convertToFile]. unfold Base64.atob.
  rewrite filter_none; [reflexivity|].
  eapply Forall_impl; [|exact Hblank]. intros c Hc. now rewrite Hc.
Qed.

Lemma convertToFile_blank_payload_witness :
  convertToFile (Str (codes "data:image/png;base64,")) = Fulfilled (inputPng [])
  /\ convertToFile (Str []) = Fulfilled (inputPng []).
Proof.
  split.
  - apply (@convertToFile_blank_payload (codes "data:image/png;base64,")).
    constructor.
  - apply (@convertToFile_blank_payload []). constructor.
Defined.

(** X6.  The index [1] read off the split is there whenever it is read:
    [split('base64,')] has two or more parts exactly when the string
    includes the marker, so [atob] is never handed [undefined]. *)
Theorem split_second_part_defined (s : JsString) :
  includes marker s = (2 <=? length (split marker s))%nat
  /\ nth_error (split marker s) 1
     = (if includes marker s then Some (base64Data s) else None).
Proof.
  unfold base64Data, secondPart.
  rewrite includes_indexOf, (split_indexOf _ marker_nonempty).
  destruct (indexOf marker s) as [i|]; [|now split].
  rewrite (split_indexOf _ marker_nonempty).
  destruct (indexOf marker (skipn (i + length marker) s)); now split.
Qed.

(* ================================================================== *)
(** ** More on the wrappers of the service *)

Section WrapperFacts.

Context {W : Type} (lib : Lib W).

(** X7.  Whatever [lib/process] throws, the three wrappers reject with
    an [Error] instance only: a caller can always read [message].  The
    message is that of the error caught when it is an [Error], and the
    fixed text of the wrapper otherwise. *)
Theorem wrappers_reject_with_errors
  (x : ImageData) (modelId : option ModelId) (w : W) :
  Observed.rejection (outcome (run lib (removeBackground x) w))
    = map rethrown (Observed.logged (trace (run lib (removeBackground x) w)))
  /\ Observed.rejection (outcome (run lib (removeBackgroundAsBlob x) w))
     = map rethrown
           (Observed.logged (trace (run lib (removeBackgroundAsBlob x) w)))
  /\ Observed.rejection (outcome (run lib (initializeModel modelId) w))
     = map (fun e =>
              ErrorObj (messageOr e (codes "Failed to initialize model")))
           (Observed.logged (trace (run lib (initializeModel modelId) w)))
  /\ forallb Observed.isError
       (Observed.rejection (outcome (run lib (removeBackground x) w))
          ++ Observed.rejection
               (outcome (run lib (removeBackgroundAsBlob x) w))
          ++ Observed.rejection
               (outcome (run lib (initializeModel modelId) w)))
     = true.
Proof.
  rewrite run_removeBackground, run_removeBackgroundAsBlob,
    run_initializeModel.
  destruct (lib_initModel lib modelId w) as [[b'|e'] w'];
    destruct (lib_initModel lib None w) as [[b|e] w1];
    try (now repeat split);
    destruct (convertToFile x) as [f|e0]; try (now repeat split);
    destruct (lib_processImage lib f w1) as [[pf|e1] w2];
    now repeat split.
Qed.

(** X8.  [console.error] is called exactly when a wrapper rejects, once,
    and with the value that was caught, not with the error thrown anew:
    the error of [initModel], else the decode error, else the error of
    [processImage].  A call that resolves logs nothing. *)
Theorem wrappers_log_what_they_caught
  (x : ImageData) (modelId : option ModelId) (w : W) :
  Observed.logged (trace (run lib (removeBackground x) w))
    = match fst (lib_initModel lib None w) with
      | Rejected e => [e]
      | Fulfilled _ =>
          match convertToFile x with
          | Rejected e => [e]
          | Fulfilled f =>
              Observed.rejection
                (fst (lib_processImage lib f
                        (snd (lib_initModel lib None w))))
          end
      end
  /\ Observed.logged (trace (run lib (removeBackgroundAsBlob x) w))
     = Observed.logged (trace (run lib (removeBackground x) w))
  /\ Observed.logged (trace (run lib (initializeModel modelId) w))
     = Observed.rejection (fst (lib_initModel lib modelId w))
  /\ length (Observed.logged (trace (run lib (removeBackground x) w)))
     = length (Observed.rejection (outcome (run lib (removeBackground x) w))).
Proof.
  rewrite run_removeBackground, run_removeBackgroundAsBlob,
    run_initializeModel.
  destruct (lib_initModel lib modelId w) as [[b'|e'] w'];
    destruct (lib_initModel lib None w) as [[b|e] w1];
    try (now repeat split);
    destruct (convertToFile x) as [f|e0]; try (now repeat split);
    cbn [fst snd];
    destruct (lib_processImage lib f w1) as [[pf|e1] w2];
    now repeat split.
Qed.

(** X9.  A request names no model and no file of its own: either
    wrapper calls [initModel] once, without a model identifier, reads
    no model information, and hands [processImage] at most one file,
    the one [convertToFile] made, which is called ['input-image.png']
    whatever the caller's file was called. *)
Theorem wrappers_call_discipline (x : ImageData) (w : W) :
  let string := trace (run lib (removeBackground x) w) in
  let blob := trace (run lib (removeBackgroundAsBlob x) w) in
  Observed.initialized string = [None]
  /\ Observed.initialized blob = [None]
  /\ Observed.processed string = Observed.processed blob
  /\ ~ In CalledGetModelInfo (string ++ blob)
  /\ length (Observed.processed string) <= 1
  /\ Forall (fun f => convertToFile x = Fulfilled f
                      /\ fileName f = codes "input-image.png")
            (Observed.processed string).
Proof.
  cbv zeta. rewrite run_removeBackground, run_removeBackgroundAsBlob.
  assert (forall f, convertToFile x = Fulfilled f ->
                    fileName f = codes "input-image.png") as Hname.
  { intros f Hf. destruct x as [s|b]; cbn [convertToFile] in Hf.
    - destruct (Base64.atob (base64Data s)); [|discriminate].
      now injection Hf as <-.
    - now injection Hf as <-. }
  destruct (lib_initModel lib None w) as [[b|e] w1].
  2:{ repeat split; auto. cbn. intuition discriminate. }
  destruct (convertToFile x) as [f|e0] eqn:Ex.
  2:{ repeat split; auto. cbn. intuition discriminate. }
  destruct (lib_processImage lib f w1) as [[pf|e1] w2]; cbn;
    repeat split; auto; try (intuition discriminate);
    repeat constructor; auto.
Qed.

End WrapperFacts.

Lemma sextetsOf_padded_length (l : list N) :
  length (Base64.sextetsOf l) + length (Base64.padding (length l))
  = 4 * ((length l + 2) / 3).
Proof.
  induction l as [|a|a b|a b c l IH] using list_ind3;
    try reflexivity.
  cbn [Base64.sextetsOf]. rewrite length_app.
  change (length (a :: b :: c :: l)) with (3 + length l).
  rewrite padding_3. cbn [length]. lia.
Qed.

(** X10.  The string [removeBackground] resolves is a third longer than
    the [Blob] [removeBackgroundAsBlob] resolves: the data URL of a
    file of [n] bytes has [4 * ceil(n / 3)] characters of base64 behind
    its prefix ['data:<type>;base64,']. *)
Theorem fileToBase64_length (f : File) :
  fileToBase64 f = Resolve (readAsDataURL f)
  /\ length (Base64.encode (fileBytes f))
     = 4 * ((length (fileBytes f) + 2) / 3)
  /\ length (readAsDataURL f)
     = 13
       + length (orElse (fileType f) (codes "application/octet-stream"))
       + 4 * ((length (fileBytes f) + 2) / 3).
Proof.
  assert (length (Base64.encode (fileBytes f))
          = 4 * ((length (fileBytes f) + 2) / 3)) as Hlen.
  { unfold Base64.encode. rewrite length_app, length_map.
    rewrite <- (length_map Byte.to_N (fileBytes f)).
    apply sextetsOf_padded_length. }
  split; [reflexivity|]. split; [exact Hlen|].
  unfold readAsDataURL. rewrite !length_app, Hlen.
  change (length (codes "data:")) with 5.
  change (length (codes ";")) with 1.
  change (length marker) with 7. lia.
Qed.

(* ================================================================== *)
(** ** More on [handleModelChange] *)

(** X11.  [handleModelChange] never rejects and always ends with the
    switching flag down.  It asks the library once, for the model
    chosen, and for nothing else.  The selection becomes the chosen
    model only when the library resolved [true]; it becomes
    ['briaai/RMBG-1.4'] when the error caught says "Falling back"; in
    every other case, a resolved [false] included, the selection stays
    as it was and an error message is shown. *)
Theorem handleModelChange_settles
  (W : Type) (lib : Lib W) (newModel : ModelId) (u : App.Ui) (w : W) :
  let r := run lib (App.handleModelChange newModel u) w in
  let answer := fst (lib_initModel lib (Some newModel) w) in
  exists u',
    outcome r = Fulfilled u'
    /\ App.isModelSwitching u' = false
    /\ trace r = [CalledInitModel (Some newModel) answer]
    /\ finalState r = snd (lib_initModel lib (Some newModel) w)
    /\ (answer = Fulfilled true -> u' = App.mkUi newModel None false)
    /\ (answer = Fulfilled false ->
        u' = App.mkUi (App.currentModel u)
                      (Some (codes "Failed to initialize new model")) false)
    /\ (forall e, answer = Rejected e -> App.saysFallingBack e = true ->
        u' = App.mkUi RMBG_1_4 None false)
    /\ (forall e, answer = Rejected e -> App.saysFallingBack e = false ->
        u' = App.mkUi (App.currentModel u)
                      (Some (messageOr e (codes "Failed to switch models")))
                      false)
    /\ (App.error u' <> None -> App.currentModel u' = App.currentModel u).
Proof.
  cbv zeta. rewrite run_handleModelChange.
  destruct (lib_initModel lib (Some newModel) w) as [[[|]|e] w1];
    cbn [fst snd outcome trace finalState];
    [ | | destruct (App.saysFallingBack e) eqn:E ];
    (eexists; split; [reflexivity|]);
    repeat split; cbn; intros; try congruence.
Qed.

(* ================================================================== *)
(** ** The list of images: [onDrop] *)

Lemma stamp_ids (clock : nat -> N) (files : list File) :
  forall k img,
    In img (Gallery.stamp clock k files) ->
    exists i, k <= i /\ Gallery.id img = (clock i + N.of_nat i)%N.
Proof.
  induction files as [|f files IH]; intros k img; cbn; [tauto|].
  intros [<-|Hin].
  - exists k. now split.
  - destruct (IH _ _ Hin) as (i & Hi & E). exists i. split; [lia|exact E].
Qed.


(** X12.  Within one drop the identifiers are pairwise distinct, and
    grow with the position of the file, as long as [Date.now()] does
    not go backwards between the files. *)
Theorem stamp_ids_distinct
  (clock : nat -> N) (files : list File) (k : nat)
  (Hclock : Gallery.monotone clock) :
  NoDup (map Gallery.id (Gallery.stamp clock k files))
  /\ Forall (fun i => (clock k + N.of_nat k <= i)%N)
            (map Gallery.id (Gallery.stamp clock k files)).
Proof.
  revert k; induction files as [|f files IH]; intros k; cbn.
  - split; constructor.
  - destruct (IH (S k)) as [Hnd Hge]. split.
    + constructor; [|exact Hnd]. intros Hin.
      apply in_map_iff in Hin as (img & E & Himg).
      destruct (stamp_ids _ _ _ _ Himg) as (i & Hi & Ei).
      pose proof (Hclock k i ltac:(lia)). lia.
    + constructor; [lia|].
      eapply Forall_impl; [|exact Hge]. cbn. intros i Hi.
      pose proof (Hclock k (S k) ltac:(lia)). lia.
Qed.

Lemma stamp_ids_distinct_witness :
  map Gallery.id
      (Gallery.stamp (fun _ => 1700000000000%N) 0
                     [inputPng []; inputPng []; inputPng []])
  = [1700000000000; 1700000000001; 1700000000002]%N
  /\ NoDup (map Gallery.id
                (Gallery.stamp (fun _ => 1700000000000%N) 0
                               [inputPng []; inputPng []; inputPng []])).
Proof.
  split; [reflexivity|].
  apply (@stamp_ids_distinct (fun _ => 1700000000000%N)
           [inputPng []; inputPng []; inputPng []] 0).
  intros i j _. apply N.le_refl.
Defined.



Section Loop.

Context {W : Type} (lib : Gallery.AppLib W).



End Loop.

Section Drop.

Context {W : Type} (lib : Gallery.AppLib W) (clock : nat -> N).



End Drop.

(** X13.  When the first drop finds that the model cannot be
    initialized ([initializeModel()] rejects, or resolves [false]), the
    list of images is emptied again, the error message is shown, the
    loading flag is taken down, and [processImages] is not called for
    any of the dropped files.  This holds for a drop of no files too:
    it initializes the model all the same. *)
Theorem onDrop_initialization_failure
  (W : Type) (lib : Gallery.AppLib W) (clock : nat -> N)
  (files : list File) (st : Gallery.AppState) (w : W)
  (Hempty : Gallery.images st = [])
  (Hfail : fst (lib_initModel (Gallery.service lib) None w)
           <> Fulfilled true) :
  let answer := fst (lib_initModel (Gallery.service lib) None w) in
  let r := Gallery.onDrop lib clock files st w in
  Gallery.images (fst (fst r)) = []
  /\ Gallery.isLoading (fst (fst r)) = false
  /\ Gallery.isWebGPU (fst (fst r)) = Gallery.isWebGPU st
  /\ App.error (Gallery.ui (fst (fst r)))
     = Some match answer with
            | Rejected e => messageOr e (codes "An unknown error occurred")
            | Fulfilled _ =>
                codes "Failed to initialize background removal model"
            end
  /\ snd (fst r) = snd (lib_initModel (Gallery.service lib) None w)
  /\ snd r = [Gallery.InitializeModelCalled None answer].
Proof.
  cbv zeta. unfold Gallery.onDrop. rewrite Hempty.
  cbn [length Nat.eqb app].
  destruct (lib_initModel (Gallery.service lib) None w) as [[[|]|e] w1];
    cbn [fst snd] in *; [contradiction| |]; now repeat split.
Qed.

Lemma onDrop_initialization_failure_witness :
  let st := Gallery.mkAppState (App.mkUi RMBG_1_4 None false) true false [] in
  let r :=
    Gallery.onDrop (Observed.appLib Samples.mirror) (fun _ => 1700000000000%N)
      [inputPng Samples.abc] st
      (Samples.freshWorld [Lifecycle.LoadFailed (codes "no such model")]) in
  Gallery.images (fst (fst r)) = []
  /\ App.error (Gallery.ui (fst (fst r))) = Some (codes "no such model").
Proof.
  cbv zeta.
  pose proof
    (@onDrop_initialization_failure Lifecycle.World
       (Observed.appLib Samples.mirror) (fun _ => 1700000000000%N)
       [inputPng Samples.abc]
       (Gallery.mkAppState (App.mkUi RMBG_1_4 None false) true false [])
       (Samples.freshWorld [Lifecycle.LoadFailed (codes "no such model")])
       eq_refl ltac:(discriminate)) as H.
  cbv zeta in H. destruct H as (H1 & _ & _ & H4 & _).
  split; [exact H1 | exact H4].
Defined.








